(** * go-rest: the HTTPS demo server (TLS bootstrap, two routes, request log)

    A shallow embedding of the server program of the repository and of
    the standard-library calls it is made of.

    The program's own code is [getTLSVersionName], [logRequestDetails],
    the two handler literals ([ordersHandler], [usersHandler]) and
    [main]; [simple_api] holds the handlers of the variant without
    request log.  Everything else models Go's standard library as far
    as the program uses it, after the library's documented behaviour:
    the version negotiation of [crypto/tls] (module [tls]), the request
    multiplexer, the response writer and [Server.ListenAndServeTLS] of
    [net/http] (modules [http] and [ServeMux]), and [path.Clean]
    (module [path]).

    Values are modelled as the program has them: a [uint16] TLS version
    is a [Z] in the range [0, 65536), Go strings are byte strings
    ([string]), the route table is a finite map from patterns to
    handlers.  What the process does (standard output, the response
    writer, the listening socket, process exit) is recorded as a trace
    of events in program order.  Connections are served one after the
    other in the trace; the interleaving of the goroutines that serve
    them is not modelled. *)

From Stdlib Require Import ZArith String Ascii List Bool Lia.
From stdpp Require Import base option list strings pretty gmap.
Import ListNotations.

Local Open Scope string_scope.
Local Open Scope list_scope.
Local Open Scope Z_scope.

(** ** crypto/tls: protocol versions and configuration *)

Module tls.

(** The version constants of package [crypto/tls] (the two-byte wire
    encoding of the protocol version). *)
Definition VersionTLS10 : Z := 0x0301.
Definition VersionTLS11 : Z := 0x0302.
Definition VersionTLS12 : Z := 0x0303.
Definition VersionTLS13 : Z := 0x0304.

(** The range of Go's [uint16]. *)
Definition uint16 (v : Z) : Prop := 0 <= v < 65536.

(** [tls.Config], restricted to the fields the program and the
    version negotiation read.  A zero [MinVersion] or [MaxVersion]
    means "not set". *)
Record Config := {
  MinVersion : Z;
  MaxVersion : Z;
  NextProtos : list string
}.

(** [tls.ConnectionState]: the program reads only [Version]. *)
Record ConnectionState := { Version : Z }.

(** The versions the package implements, in preference order. *)
Definition supportedVersions : list Z :=
  [VersionTLS13; VersionTLS12; VersionTLS11; VersionTLS10].

(** [Config.supportedVersions] on the server side: a version is
    kept unless it is below the configured minimum (below TLS 1.2
    when no minimum is set) or above the configured maximum. *)
Definition versionEnabled (c : Config) (v : Z) : bool :=
  negb ((MinVersion c =? 0) && (v <? VersionTLS12))
  && negb (negb (MinVersion c =? 0) && (v <? MinVersion c))
  && negb (negb (MaxVersion c =? 0) && (MaxVersion c <? v)).

Definition Config_supportedVersions (c : Config) : list Z :=
  List.filter (versionEnabled c) supportedVersions.

(** [Config.mutualVersion]: the first supported version that the
    peer offers as well. *)
Definition contains (vs : list Z) (v : Z) : bool :=
  List.existsb (Z.eqb v) vs.

Definition mutualVersion (c : Config) (peerVersions : list Z) : option Z :=
  List.find (contains peerVersions) (Config_supportedVersions c).

End tls.

(** ** The program: naming a TLS version *)

(** [getTLSVersionName], a [switch] over the four version constants
    with a default case. *)
Definition getTLSVersionName (version : Z) : string :=
  if version =? tls.VersionTLS10 then "TLS 1.0"
  else if version =? tls.VersionTLS11 then "TLS 1.1"
  else if version =? tls.VersionTLS12 then "TLS 1.2"
  else if version =? tls.VersionTLS13 then "TLS 1.3"
  else "Unknown TLS version!".

(** ** Events

    Why registering a handler panics: the pattern is empty, or it
    conflicts with a pattern registered before. *)
Inductive registrationError :=
| InvalidPattern
| MultipleRegistrations (pattern : string).

(** What the process does to the outside world, in program order. *)
Inductive event :=
| Println (line : string)          (* fmt.Println: one line on standard output *)
| LogPrint (line : string)         (* package log: one line on standard error
                                      (without the time-stamp prefix) *)
| Exit (code : Z)                  (* os.Exit *)
| Panic (why : registrationError)  (* an unrecovered panic *)
| Listen (addr : string)           (* net.Listen succeeded: the socket is bound *)
| CloseListener                    (* the listening socket is closed *)
| HandshakeFailed                  (* the TLS handshake of a connection failed *)
| HandshakeComplete (version : Z)  (* ... or succeeded, with this version *)
| Call (pattern : string)          (* the multiplexer calls the handler
                                      registered under [pattern] *)
| SetHeader (key value : string)   (* w.Header().Set *)
| WriteHeader (code : Z)           (* w.WriteHeader *)
| Write (data : string).           (* w.Write *)

(** ** Package fmt *)

(** [fmt.Println] of string operands: the operands separated by single
    spaces (the newline ends the [Println] event). *)
Fixpoint Sprintln (operands : list string) : string :=
  match operands with
  | [] => EmptyString
  | [a] => a
  | a :: rest => a +:+ " " +:+ Sprintln rest
  end.

Definition fmt_Println (operands : list string) : list event :=
  [Println (Sprintln operands)].

(** [fmt.Fprintf(w, format)] without arguments.  The format strings of
    the program contain no verb, so the text written is the format
    itself. *)
Definition fmt_Fprintf (format : string) : list event := [Write format].

(** ** net/http: requests and the response writer *)

Module http.

(** [http.Request], restricted to what the multiplexer and the
    program read: the method, [r.URL.Path], [r.Proto] and [r.TLS]
    ([None] is Go's [nil]).  The asterisk-form request target
    ([r.RequestURI == "*"]) is the path ["*"].  Paths are taken without
    percent-encoded octets, so that the path and its escaped form are
    the same string. *)
Record Request := {
  Method : string;
  Path : string;
  Proto : string;
  TLS : option tls.ConnectionState
}.

Definition StatusOK : Z := 200.
Definition StatusTemporaryRedirect : Z := 307.
Definition StatusBadRequest : Z := 400.
Definition StatusNotFound : Z := 404.

(** A handler as registered with [http.HandleFunc]: from the request
    to what it does, in order. *)
Definition HandlerFunc : Type := Request -> list event.

(** The response as the handlers determine it: the status, the
    [Location] header and the body bytes sent. *)
Record Response := {
  StatusCode : Z;
  Location : option string;
  Body : string
}.

(** The state of the server's [http.ResponseWriter]. *)
Record response := {
  wroteHeader : bool;
  status : Z;
  location : option string;
  written : string
}.

Definition newResponse : response :=
  {| wroteHeader := false; status := 0; location := None; written := EmptyString |}.

(** [w.WriteHeader]: only the first call counts. *)
Definition response_WriteHeader (code : Z) (w : response) : response :=
  if wroteHeader w then w
  else {| wroteHeader := true; status := code;
          location := location w; written := written w |}.

(** Statuses that permit a body. *)
Definition bodyAllowedForStatus (code : Z) : bool :=
  if (100 <=? code) && (code <=? 199) then false
  else if code =? 204 then false
  else if code =? 304 then false
  else true.

(** [w.Write]: the header goes out with status 200 if it was not
    written yet; a status without body refuses the data; what is
    written in answer to a HEAD request is accepted but not sent. *)
Definition response_Write (method data : string) (w : response) : response :=
  let w := response_WriteHeader StatusOK w in
  if negb (bodyAllowedForStatus (status w)) then w
  else if String.eqb method "HEAD" then w
  else {| wroteHeader := true; status := status w;
          location := location w; written := written w +:+ data |}.

(** [w.Header().Set("Location", _)] has no effect once the header is
    written; other header fields are not modelled. *)
Definition response_SetHeader (key value : string) (w : response) : response :=
  if wroteHeader w then w
  else if String.eqb key "Location"
       then {| wroteHeader := false; status := status w;
               location := Some value; written := written w |}
       else w.

Definition response_step (method : string) (w : response) (e : event) : response :=
  match e with
  | SetHeader k v => response_SetHeader k v w
  | WriteHeader c => response_WriteHeader c w
  | Write d => response_Write method d w
  | _ => w
  end.

(** When the handler returns without having written the header, the
    server sends it with status 200. *)
Definition finishRequest (w : response) : Response :=
  let w := response_WriteHeader StatusOK w in
  {| StatusCode := status w; Location := location w; Body := written w |}.

(** The response to a request with method [method] whose handling
    produced [evs]. *)
Definition responseOf (method : string) (evs : list event) : Response :=
  finishRequest (fold_left (response_step method) evs newResponse).

End http.

(** ** The program: the request log and the two handlers *)

(** [logRequestDetails]. *)
Definition logRequestDetails (r : http.Request) : list event :=
  let httpVersion := http.Proto r in
  fmt_Println ["☑️ Received request with HTTP version:"; httpVersion] ++
  match http.TLS r with
  | Some st =>
      let tlsVersion := getTLSVersionName (tls.Version st) in
      fmt_Println ["☑️ Received request with TLS version:"; tlsVersion]
  | None =>
      fmt_Println ["☑️ Received request without TLS"]
  end.

(** The function literal registered for ["/orders"] in [main]. *)
Definition ordersHandler : http.HandlerFunc := fun r =>
  logRequestDetails r ++ fmt_Fprintf "Handling incoming orders..✅".

(** The function literal registered for ["/users"] in [main]. *)
Definition usersHandler : http.HandlerFunc := fun r =>
  logRequestDetails r ++ fmt_Fprintf "Handling users..✅".

(** The handlers of [simple-api/server.go], which do not log. *)
Module simple_api.
Definition ordersHandler : http.HandlerFunc := fun _ =>
  fmt_Fprintf "Handling incoming orders..✅".
Definition usersHandler : http.HandlerFunc := fun _ =>
  fmt_Fprintf "Handling users..✅".
End simple_api.

(** ** Package path and the multiplexer's path canonicalisation *)

Module path.

(** The elements of a path between slashes; [cur] is the element
    being read. *)
Fixpoint split (p cur : string) : list string :=
  match p with
  | EmptyString => [cur]
  | String c rest =>
      if Ascii.eqb c "/" then cur :: split rest EmptyString
      else split rest (cur +:+ String c EmptyString)
  end.

Definition rooted (p : string) : bool :=
  match p with
  | String c _ => Ascii.eqb c "/"
  | EmptyString => false
  end.

(** One element against the elements kept so far (innermost first):
    empty and [.] elements are dropped, [..] removes the element
    before it, or is dropped at the root, or is kept at the start of
    a relative path. *)
Definition keep (isRooted : bool) (kept : list string) (elem : string) : list string :=
  if String.eqb elem EmptyString then kept
  else if String.eqb elem "." then kept
  else if String.eqb elem ".." then
    match kept with
    | top :: below => if String.eqb top ".." then elem :: kept else below
    | [] => if isRooted then [] else [elem]
    end
  else elem :: kept.

(** [path.Clean]: the shortest path equivalent to [p] by the rules of
    the package documentation. *)
Definition Clean (p : string) : string :=
  let kept := fold_left (keep (rooted p)) (split p EmptyString) [] in
  let out := (if rooted p then "/" else EmptyString) +:+ String.concat "/" (rev kept) in
  if String.eqb out EmptyString then "." else out.

End path.

Module ServeMux.

Definition endsWithSlash (p : string) : bool :=
  match rev (list_ascii_of_string p) with
  | c :: _ => Ascii.eqb c "/"
  | [] => false
  end.

(** [cleanPath]: the canonical form of a request path; a trailing
    slash survives. *)
Definition cleanPath (p : string) : string :=
  if String.eqb p EmptyString then "/"
  else
    let p := if path.rooted p then p else "/" +:+ p in
    let np := path.Clean p in
    if endsWithSlash p && negb (String.eqb np "/") then np +:+ "/" else np.

(** The registered handlers by pattern.  The patterns of the program
    are rooted paths without trailing slash, method, host or
    wildcard; such a pattern matches exactly its own path. *)
Abbreviation t := (gmap string http.HandlerFunc).

Inductive registration :=
| Registered (mux : t)
| Panicked (why : registrationError).

(** [http.HandleFunc] on the default multiplexer.  The package
    documents: if the given pattern conflicts with one that is already
    registered, Handle panics.  An empty pattern panics as well.  The
    model is exact for patterns of the plain form above; the library
    refuses further patterns (one without a slash, a malformed or a
    conflicting wildcard), which only adds panics. *)
Definition HandleFunc (pattern : string) (handler : http.HandlerFunc) (mux : t)
  : registration :=
  if String.eqb pattern EmptyString then Panicked InvalidPattern
  else match mux !! pattern with
       | Some _ => Panicked (MultipleRegistrations pattern)
       | None => Registered (<[pattern := handler]> mux)
       end.

(** The handler the multiplexer selects for a request. *)
Inductive selected :=
| Found (pattern : string) (h : http.HandlerFunc)
| RedirectHandler (url : string) (code : Z)
| NotFoundHandler.

Definition match_ (mux : t) (p : string) : selected :=
  match mux !! p with
  | Some h => Found p h
  | None => NotFoundHandler
  end.

(** [ServeMux.Handler].  The package documents: ServeMux also takes
    care of sanitizing the URL request path, redirecting any request
    containing . or .. segments or repeated slashes to an equivalent,
    cleaner URL.  CONNECT requests are matched as they are; without a
    match the handler is the not-found handler.  The redirect is a
    temporary redirect, 307; earlier releases of the library answered
    301, and nothing proved below depends on which of the two it is. *)
Definition Handler (mux : t) (r : http.Request) : selected :=
  if String.eqb (http.Method r) "CONNECT" then match_ mux (http.Path r)
  else
    let p := cleanPath (http.Path r) in
    if negb (String.eqb p (http.Path r))
    then RedirectHandler p http.StatusTemporaryRedirect
    else match_ mux (http.Path r).

Definition LF : string := String (ascii_of_nat 10) EmptyString.

(** [http.Error]: the status and the message on a line. *)
Definition Error (msg : string) (code : Z) : list event :=
  [WriteHeader code; Write (msg +:+ LF)].

(** [http.Redirect] to a rooted path: the [Location] header and the
    status.  The percent-encoding of the target, the query string and
    the short HTML body that goes with the redirect of a GET are left
    out. *)
Definition Redirect (url : string) (code : Z) : list event :=
  [SetHeader "Location" url; WriteHeader code].

Definition serve (s : selected) (r : http.Request) : list event :=
  match s with
  | Found pattern h => Call pattern :: h r
  | RedirectHandler url code => Redirect url code
  | NotFoundHandler => Error "404 page not found" http.StatusNotFound
  end.

(** [ServeMux.ServeHTTP]: the asterisk form is a bad request;
    everything else goes to the selected handler. *)
Definition ServeHTTP (mux : t) (r : http.Request) : list event :=
  if String.eqb (http.Path r) "*" then [WriteHeader http.StatusBadRequest]
  else serve (Handler mux r) r.

End ServeMux.

(** [serverHandler.ServeHTTP] for a server whose [Handler] is [nil]:
    the default multiplexer, except that [OPTIONS *] is answered by the
    server itself (an empty 200 response). *)
Definition serverHandler_ServeHTTP (DefaultServeMux : ServeMux.t) (r : http.Request)
  : list event :=
  if String.eqb (http.Path r) "*" && String.eqb (http.Method r) "OPTIONS"
  then [SetHeader "Content-Length" "0"]
  else ServeMux.ServeHTTP DefaultServeMux r.

(** The response a request gets from a server with these routes. *)
Definition respond (DefaultServeMux : ServeMux.t) (r : http.Request) : http.Response :=
  http.responseOf (http.Method r) (serverHandler_ServeHTTP DefaultServeMux r).

(** ** Connections and the TLS handshake *)

(** What a client offers when it opens a connection: the protocol
    versions it supports, and whether the rest of the negotiation
    (cipher suite, key exchange, certificate) goes through. *)
Record ClientHello := {
  supported_versions : list Z;
  negotiable : bool
}.

(** A request as it arrives on a connection. *)
Record requestLine := {
  line_method : string;
  line_path : string;
  line_proto : string
}.

(** A connection the listener accepts: the client's hello ([None] when
    its first bytes are not a TLS hello at all) and the requests it
    sends once the handshake is through. *)
Record Conn := {
  hello : option ClientHello;
  requests : list requestLine
}.

(** The server side of the handshake: the version is the mutual
    version of the configuration and the client's offer; without one
    (the client offered only unsupported versions) the handshake
    fails. *)
Definition serverHandshake (config : tls.Config) (c : Conn) : option tls.ConnectionState :=
  match hello c with
  | None => None
  | Some h =>
      match tls.mutualVersion config (supported_versions h) with
      | None => None
      | Some v => if negotiable h then Some {| tls.Version := v |} else None
      end
  end.

(** The server reads a request and attaches the connection state. *)
Definition readRequest (st : tls.ConnectionState) (l : requestLine) : http.Request :=
  {| http.Method := line_method l; http.Path := line_path l;
     http.Proto := line_proto l; http.TLS := Some st |}.

(** Serving one accepted connection: the handshake first; a connection
    whose handshake fails is dropped, otherwise its requests are served
    in order. *)
Definition serveConn (DefaultServeMux : ServeMux.t) (config : tls.Config) (c : Conn)
  : list event :=
  match serverHandshake config c with
  | None => [HandshakeFailed]
  | Some st =>
      HandshakeComplete (tls.Version st) ::
      flat_map (fun l => serverHandler_ServeHTTP DefaultServeMux (readRequest st l))
               (requests c)
  end.

(** ** The server and its environment *)

(** A Go [error], by its message. *)
Definition error : Type := string.

Inductive result (A : Type) :=
| Ok (a : A)
| Err (e : error).
Arguments Ok {A} a.
Arguments Err {A} e.

(** The machine the process runs on: whether an address can be bound
    ([None] is success) and what reading a file gives. *)
Record Env := {
  net_Listen : string -> option error;
  os_ReadFile : string -> result string
}.

(** [http.Server]; its [Handler] is [nil] in the program, which selects
    the default multiplexer. *)
Record Server := {
  Addr : string;
  TLSConfig : tls.Config
}.

Definition appendIfAbsent (proto : string) (protos : list string) : list string :=
  if existsb (String.eqb proto) protos then protos else protos ++ [proto].

(** [http2.ConfigureServer]: HTTP/2 is offered in the protocol
    negotiation; the version bounds stay as they are. *)
Definition http2_ConfigureServer (s : Server) : Server :=
  let c := TLSConfig s in
  {| Addr := Addr s;
     TLSConfig :=
       {| tls.MinVersion := tls.MinVersion c;
          tls.MaxVersion := tls.MaxVersion c;
          tls.NextProtos :=
            appendIfAbsent "http/1.1" (appendIfAbsent "h2" (tls.NextProtos c)) |} |}.

(** [log.Fatal(s, err)]: the operands are printed without a space
    between them (one of them is a string), then the process exits
    with status 1. *)
Definition log_Fatal (s : string) (err : error) : list event :=
  [LogPrint (s +:+ err); Exit 1].

Section Serving.

(** Parsing a PEM encoded certificate and key is a parameter. *)
Variable Certificate : Type.
Variable X509KeyPair : string -> string -> result Certificate.

(** [tls.LoadX509KeyPair]: both files are read, then parsed. *)
Definition LoadX509KeyPair (env : Env) (certFile keyFile : string) : result Certificate :=
  match os_ReadFile env certFile with
  | Err e => Err e
  | Ok certPEMBlock =>
      match os_ReadFile env keyFile with
      | Err e => Err e
      | Ok keyPEMBlock => X509KeyPair certPEMBlock keyPEMBlock
      end
  end.

(** [Server.ServeTLS]: the key pair is loaded, then connections are
    accepted and served.  [conns] are the connections accepted so far;
    [None] as error means that the server is still accepting. *)
Definition ServeTLS (DefaultServeMux : ServeMux.t) (srv : Server) (env : Env)
    (certFile keyFile : string) (conns : list Conn) : list event * option error :=
  match LoadX509KeyPair env certFile keyFile with
  | Err e => ([], Some e)
  | Ok _ => (flat_map (serveConn DefaultServeMux (TLSConfig srv)) conns, None)
  end.

(** [Server.ListenAndServeTLS]: [net.Listen] on the address, a
    deferred [Close] of the listener, then [ServeTLS] on it; so the
    address is bound before the key pair is loaded, and the socket is
    closed again when the function returns. *)
Definition ListenAndServeTLS (DefaultServeMux : ServeMux.t) (srv : Server) (env : Env)
    (certFile keyFile : string) (conns : list Conn) : list event * option error :=
  let addr := if String.eqb (Addr srv) EmptyString then ":https" else Addr srv in
  match net_Listen env addr with
  | Some e => ([], Some e)
  | None =>
      match ServeTLS DefaultServeMux srv env certFile keyFile conns with
      | (evs, Some e) => (Listen addr :: evs ++ [CloseListener], Some e)
      | (evs, None) => (Listen addr :: evs, None)
      end
  end.

(** The two registrations at the start of [main], on the empty default
    multiplexer. *)
Definition registerRoutes : ServeMux.registration :=
  match ServeMux.HandleFunc "/orders" ordersHandler ∅ with
  | ServeMux.Panicked why => ServeMux.Panicked why
  | ServeMux.Registered mux => ServeMux.HandleFunc "/users" usersHandler mux
  end.

Definition PORT : Z := 3000.

(** The [tls.Config] literal of [main]. *)
Definition tlsConfig : tls.Config :=
  {| tls.MinVersion := tls.VersionTLS12; tls.MaxVersion := 0; tls.NextProtos := [] |}.

(** The [http.Server] literal of [main]. *)
Definition server : Server :=
  {| Addr := ":" +:+ pretty PORT; TLSConfig := tlsConfig |}.

(** [main]: the trace of the process in environment [env] when the
    clients [conns] connect. *)
Definition main (env : Env) (conns : list Conn) : list event :=
  match registerRoutes with
  | ServeMux.Panicked why => [Panic why; Exit 2]
  | ServeMux.Registered DefaultServeMux =>
      let cert := "cert.pem" in
      let key := "key.pem" in
      let server := http2_ConfigureServer server in
      fmt_Println ["🟢 Server is running on PORT:"; pretty PORT] ++
      match ListenAndServeTLS DefaultServeMux server env cert key conns with
      | (evs, Some err) => evs ++ log_Fatal "⚠️ Could not start the server:" err
      | (evs, None) => evs
      end
  end.

End Serving.

(** The route table of the running server. *)
Definition routes : ServeMux.t :=
  <["/users" := usersHandler]> (<["/orders" := ordersHandler]> ∅).

(** ** Observations on a trace *)

(** The lines an operator sees, standard output and standard error
    together. *)
Definition output (tr : list event) : list string :=
  flat_map (fun e => match e with
                     | Println l => [l]
                     | LogPrint l => [l]
                     | Panic InvalidPattern => ["panic: http: invalid pattern"]
                     | Panic (MultipleRegistrations p) =>
                         ["panic: http: multiple registrations for " +:+ p]
                     | _ => []
                     end) tr.

(** The patterns of the registered handlers called, in order. *)
Definition handlerCalls (tr : list event) : list string :=
  flat_map (fun e => match e with Call p => [p] | _ => [] end) tr.

(** The lines on standard output. *)
Definition stdout (tr : list event) : list string :=
  flat_map (fun e => match e with Println l => [l] | _ => [] end) tr.

(** The status the process exited with, if it did. *)
Definition exits (tr : list event) : list Z :=
  flat_map (fun e => match e with Exit c => [c] | _ => [] end) tr.

Definition exitCode (tr : list event) : option Z := head (exits tr).

(** An environment without certificate and key: the port is free, no
    file can be read. *)
Definition no_files : Env :=
  {| net_Listen := fun _ => None;
     os_ReadFile := fun name => Err ("open " +:+ name +:+ ": no such file or directory") |}.

(** The five names [getTLSVersionName] can return. *)
Definition versionNames : list string :=
  ["TLS 1.0"; "TLS 1.1"; "TLS 1.2"; "TLS 1.3"; "Unknown TLS version!"].

(** The configuration the server hands to the TLS listener. *)
Definition servingConfig : tls.Config := TLSConfig (http2_ConfigureServer server).

(** The versions a client offers on a connection. *)
Definition offered (c : Conn) : list Z :=
  match hello c with
  | Some h => supported_versions h
  | None => []
  end.

(** The route table of [simple-api/server.go]. *)
Definition simple_routes : ServeMux.t :=
  <["/users" := simple_api.usersHandler]> (<["/orders" := simple_api.ordersHandler]> ∅).

(** ** The other servers of the repository *)

(** Two handlers registered one after the other, as every [main] of
    the repository does. *)
Definition HandleFunc2 (p : string) (hp : http.HandlerFunc)
    (q : string) (hq : http.HandlerFunc) (mux : ServeMux.t) : ServeMux.registration :=
  match ServeMux.HandleFunc p hp mux with
  | ServeMux.Panicked why => ServeMux.Panicked why
  | ServeMux.Registered mux' => ServeMux.HandleFunc q hq mux'
  end.

Section SimpleApi.

Variable Certificate : Type.
Variable X509KeyPair : string -> string -> result Certificate.

(** [main] of [simple-api/server.go]: the program of [main] above with
    handlers that do not log; port, TLS configuration and server are
    the same literals. *)
Definition simple_api_main (env : Env) (conns : list Conn) : list event :=
  match HandleFunc2 "/orders" simple_api.ordersHandler
                    "/users" simple_api.usersHandler ∅ with
  | ServeMux.Panicked why => [Panic why; Exit 2]
  | ServeMux.Registered DefaultServeMux =>
      let cert := "cert.pem" in
      let key := "key.pem" in
      let server := http2_ConfigureServer server in
      fmt_Println ["🟢 Server is running on PORT:"; pretty PORT] ++
      match ListenAndServeTLS Certificate X509KeyPair
                              DefaultServeMux server env cert key conns with
      | (evs, Some err) => evs ++ log_Fatal "⚠️ Could not start the server:" err
      | (evs, None) => evs
      end
  end.

End SimpleApi.

(** A request on a connection without TLS: [r.TLS] is [nil]. *)
Definition readPlainRequest (l : requestLine) : http.Request :=
  {| http.Method := line_method l; http.Path := line_path l;
     http.Proto := line_proto l; http.TLS := None |}.

(** [http.ListenAndServe] with a [nil] handler: the address is bound
    and the connections are served without TLS, each one a list of
    requests.  [None] as error means that the server is still
    accepting. *)
Definition http_ListenAndServe (DefaultServeMux : ServeMux.t) (addr : string) (env : Env)
    (conns : list (list requestLine)) : list event * option error :=
  let addr := if String.eqb addr EmptyString then ":http" else addr in
  match net_Listen env addr with
  | Some e => ([], Some e)
  | None =>
      (Listen addr ::
       flat_map (flat_map (fun l => serverHandler_ServeHTTP DefaultServeMux
                                      (readPlainRequest l))) conns,
       None)
  end.

(** [main] of the server in [demo/http-client.md]: the handlers of
    [simple-api] served without TLS.  The error [http.ListenAndServe]
    returns is dropped, so [main] returns and the process ends with
    status 0. *)
Definition plain_main (env : Env) (conns : list (list requestLine)) : list event :=
  match HandleFunc2 "/orders" simple_api.ordersHandler
                    "/users" simple_api.usersHandler ∅ with
  | ServeMux.Panicked why => [Panic why; Exit 2]
  | ServeMux.Registered DefaultServeMux =>
      fmt_Println ["🟢 Server is running on PORT:"; pretty PORT] ++
      match http_ListenAndServe DefaultServeMux (":" +:+ pretty PORT) env conns with
      | (evs, Some _) => evs ++ [Exit 0]
      | (evs, None) => evs
      end
  end.

(** An environment in which startup succeeds as far as the machine is
    concerned: the port is free and every file can be read. *)
Definition all_files : Env :=
  {| net_Listen := fun _ => None;
     os_ReadFile := fun name => Ok ("-----BEGIN " +:+ name) |}.

(** A path element that [path.Clean] keeps in a rooted path: not
    empty, neither [.] nor [..], and without a slash. *)
Fixpoint noSlash (s : string) : bool :=
  match s with
  | EmptyString => true
  | String c rest => negb (Ascii.eqb c "/") && noSlash rest
  end.

Definition regular (elem : string) : bool :=
  negb (String.eqb elem EmptyString) && negb (String.eqb elem ".")
  && negb (String.eqb elem "..") && noSlash elem.

(** A trace without what goes to standard output. *)
Definition withoutPrintln (tr : list event) : list event :=
  List.filter (fun e => match e with Println _ => false | _ => true end) tr.

(** The versions of the handshakes completed in a trace. *)
Definition handshakes (tr : list event) : list Z :=
  flat_map (fun e => match e with HandshakeComplete v => [v] | _ => [] end) tr.

(** * Properties *)

(** ** The definitions on examples *)

Example getTLSVersionName_tls12 : getTLSVersionName 771 = "TLS 1.2".
Proof. reflexivity. Qed.

Example getTLSVersionName_ssl3 : getTLSVersionName 0x0300 = "Unknown TLS version!".
Proof. reflexivity. Qed.

Example cleanPath_double_slash : ServeMux.cleanPath "//orders" = "/orders".
Proof. reflexivity. Qed.

Example cleanPath_dotdot : ServeMux.cleanPath "/orders/../users/./" = "/users/".
Proof. reflexivity. Qed.

Example cleanPath_root : ServeMux.cleanPath "/.." = "/".
Proof. reflexivity. Qed.

Example cleanPath_orders : ServeMux.cleanPath "/orders" = "/orders".
Proof. reflexivity. Qed.

Example Clean_relative : path.Clean "a/../../b//c/." = "../b/c".
Proof. reflexivity. Qed.

(** ** The route table *)

Lemma routes_orders : routes !! "/orders" = Some ordersHandler.
Proof. unfold routes. rewrite lookup_insert_ne by discriminate. apply lookup_insert_eq. Qed.

Lemma routes_users : routes !! "/users" = Some usersHandler.
Proof. unfold routes. apply lookup_insert_eq. Qed.

Lemma routes_other (p : string) :
  p ≠ "/orders" → p ≠ "/users" → routes !! p = None.
Proof.
  intros Ho Hu. unfold routes.
  rewrite lookup_insert_ne by congruence.
  rewrite lookup_insert_ne by congruence.
  apply lookup_empty.
Qed.

(** The registrations of [main] go through and build [routes]. *)
Lemma registerRoutes_ok : registerRoutes = ServeMux.Registered routes.
Proof.
  unfold registerRoutes, ServeMux.HandleFunc.
  change (String.eqb "/orders" EmptyString) with false. cbv iota.
  rewrite lookup_empty.
  change (String.eqb "/users" EmptyString) with false. cbv iota.
  rewrite lookup_insert_ne by discriminate. rewrite lookup_empty.
  reflexivity.
Qed.

(** A registration on a free, non-empty pattern adds the handler. *)
Lemma HandleFunc_fresh (pattern : string) (h : http.HandlerFunc) (mux : ServeMux.t) :
  pattern ≠ EmptyString → mux !! pattern = None →
  ServeMux.HandleFunc pattern h mux = ServeMux.Registered (<[pattern := h]> mux).
Proof.
  intros Hne Hfree. unfold ServeMux.HandleFunc.
  destruct (String.eqb_spec pattern EmptyString) as [E|_]; [contradiction|].
  now rewrite Hfree.
Qed.

(** Whatever a registration returns, it never changes a handler that
    was there. *)
Lemma HandleFunc_keeps (pattern p : string) (h h0 : http.HandlerFunc) (mux mux' : ServeMux.t) :
  ServeMux.HandleFunc pattern h mux = ServeMux.Registered mux' →
  mux !! p = Some h0 → mux' !! p = Some h0.
Proof.
  unfold ServeMux.HandleFunc.
  destruct (String.eqb pattern EmptyString); [discriminate|].
  destruct (mux !! pattern) eqn:Hl; [discriminate|].
  intros [= <-] Hp.
  rewrite lookup_insert_ne; [exact Hp|]. intros ->. congruence.
Qed.

(** ** Naming a TLS version *)

Lemma getTLSVersionName_cases (v : Z) :
  (v = tls.VersionTLS10 ∧ getTLSVersionName v = "TLS 1.0") ∨
  (v = tls.VersionTLS11 ∧ getTLSVersionName v = "TLS 1.1") ∨
  (v = tls.VersionTLS12 ∧ getTLSVersionName v = "TLS 1.2") ∨
  (v = tls.VersionTLS13 ∧ getTLSVersionName v = "TLS 1.3") ∨
  (v ≠ tls.VersionTLS10 ∧ v ≠ tls.VersionTLS11 ∧
   v ≠ tls.VersionTLS12 ∧ v ≠ tls.VersionTLS13 ∧
   getTLSVersionName v = "Unknown TLS version!").
Proof.
  unfold getTLSVersionName.
  destruct (Z.eqb_spec v tls.VersionTLS10) as [->|H0]; [left; split; reflexivity|].
  destruct (Z.eqb_spec v tls.VersionTLS11) as [->|H1]; [right; left; split; reflexivity|].
  destruct (Z.eqb_spec v tls.VersionTLS12) as [->|H2];
    [right; right; left; split; reflexivity|].
  destruct (Z.eqb_spec v tls.VersionTLS13) as [->|H3];
    [right; right; right; left; split; reflexivity|].
  right; right; right; right. repeat split; assumption.
Qed.

(** C10. [getTLSVersionName] is defined on every [uint16]: the four
    version constants get the names "TLS 1.0", "TLS 1.1", "TLS 1.2" and
    "TLS 1.3", every other value gets "Unknown TLS version!", and the
    results are exactly these five strings. *)
Theorem getTLSVersionName_total :
  (getTLSVersionName tls.VersionTLS10 = "TLS 1.0" ∧
   getTLSVersionName tls.VersionTLS11 = "TLS 1.1" ∧
   getTLSVersionName tls.VersionTLS12 = "TLS 1.2" ∧
   getTLSVersionName tls.VersionTLS13 = "TLS 1.3") ∧
  (∀ v : Z, tls.uint16 v →
     v ≠ tls.VersionTLS10 → v ≠ tls.VersionTLS11 →
     v ≠ tls.VersionTLS12 → v ≠ tls.VersionTLS13 →
     getTLSVersionName v = "Unknown TLS version!") ∧
  (∀ v : Z, tls.uint16 v → In (getTLSVersionName v) versionNames) ∧
  (∀ s : string, In s versionNames →
     ∃ v : Z, tls.uint16 v ∧ getTLSVersionName v = s).
Proof.
  split; [repeat split|split; [|split]].
  - intros v _ H0 H1 H2 H3.
    destruct (getTLSVersionName_cases v)
      as [[E _]|[[E _]|[[E _]|[[E _]|(_ & _ & _ & _ & E)]]]]; congruence.
  - intros v _. unfold versionNames.
    destruct (getTLSVersionName_cases v)
      as [[_ E]|[[_ E]|[[_ E]|[[_ E]|(_ & _ & _ & _ & E)]]]]; rewrite E; simpl; tauto.
  - intros s Hs. unfold versionNames in Hs. simpl in Hs.
    destruct Hs as [<-|[<-|[<-|[<-|[<-|[]]]]]].
    + exists tls.VersionTLS10. split; [unfold tls.uint16, tls.VersionTLS10; lia|reflexivity].
    + exists tls.VersionTLS11. split; [unfold tls.uint16, tls.VersionTLS11; lia|reflexivity].
    + exists tls.VersionTLS12. split; [unfold tls.uint16, tls.VersionTLS12; lia|reflexivity].
    + exists tls.VersionTLS13. split; [unfold tls.uint16, tls.VersionTLS13; lia|reflexivity].
    + exists 0. split; [unfold tls.uint16; lia|reflexivity].
Qed.

(** ** Registering a pattern twice *)

(** C3, as the claim states it, fails: registering ["/orders"] a second
    time, with another handler, does not replace the first handler; the
    registration panics. *)
Lemma second_registration_panics :
  match ServeMux.HandleFunc "/orders" ordersHandler ∅ with
  | ServeMux.Registered mux => ServeMux.HandleFunc "/orders" usersHandler mux
  | ServeMux.Panicked why => ServeMux.Panicked why
  end = ServeMux.Panicked (MultipleRegistrations "/orders").
Proof.
  rewrite HandleFunc_fresh by (discriminate || apply lookup_empty).
  unfold ServeMux.HandleFunc.
  change (String.eqb "/orders" EmptyString) with false. cbv iota.
  now rewrite lookup_insert_eq.
Qed.

(** C3, amended.  Once a pattern is registered, registering it again
    panics, whatever the handler, and the handler registered first
    stays; the two registrations of the program are on distinct
    patterns and both go through. *)
Theorem duplicate_registration_panics
    (pattern : string) (h1 h2 : http.HandlerFunc) (mux mux' : ServeMux.t) :
  ServeMux.HandleFunc pattern h1 mux = ServeMux.Registered mux' →
  ServeMux.HandleFunc pattern h2 mux' = ServeMux.Panicked (MultipleRegistrations pattern)
  ∧ mux' !! pattern = Some h1
  ∧ registerRoutes = ServeMux.Registered routes.
Proof.
  unfold ServeMux.HandleFunc at 1.
  destruct (String.eqb pattern EmptyString) eqn:Hempty; [discriminate|].
  destruct (mux !! pattern) eqn:Hfree; [discriminate|].
  intros [= <-].
  assert (Hh : (<[pattern := h1]> mux : ServeMux.t) !! pattern = Some h1)
    by apply lookup_insert_eq.
  split; [|split; [exact Hh|exact registerRoutes_ok]].
  unfold ServeMux.HandleFunc. now rewrite Hempty, Hh.
Qed.

Lemma duplicate_registration_panics_witness :
  ServeMux.HandleFunc "/orders" ordersHandler ∅
    = ServeMux.Registered (<["/orders" := ordersHandler]> ∅)
  ∧ (ServeMux.HandleFunc "/orders" usersHandler (<["/orders" := ordersHandler]> ∅)
       = ServeMux.Panicked (MultipleRegistrations "/orders")
     ∧ (<["/orders" := ordersHandler]> ∅ : ServeMux.t) !! "/orders" = Some ordersHandler
     ∧ registerRoutes = ServeMux.Registered routes).
Proof.
  assert (H : ServeMux.HandleFunc "/orders" ordersHandler ∅
              = ServeMux.Registered (<["/orders" := ordersHandler]> ∅))
    by (apply HandleFunc_fresh; [discriminate|apply lookup_empty]).
  split; [exact H|].
  exact (duplicate_registration_panics "/orders" ordersHandler usersHandler ∅ _ H).
Defined.

(** ** Version negotiation *)

Lemma servingConfig_MinVersion : tls.MinVersion servingConfig = tls.VersionTLS12.
Proof. reflexivity. Qed.

Lemma contains_In (vs : list Z) (v : Z) : tls.contains vs v = true ↔ In v vs.
Proof.
  unfold tls.contains. rewrite existsb_exists. split.
  - intros (x & Hx & E). apply Z.eqb_eq in E. now subst.
  - intros H. exists v. split; [exact H|apply Z.eqb_refl].
Qed.

(** A version enabled by a configuration with a minimum is not below
    the minimum. *)
Lemma versionEnabled_min (c : tls.Config) (v : Z) :
  tls.MinVersion c ≠ 0 → tls.versionEnabled c v = true → tls.MinVersion c <= v.
Proof.
  intros Hmin. unfold tls.versionEnabled.
  destruct (Z.eqb_spec (tls.MinVersion c) 0) as [E|_]; [contradiction|].
  destruct (Z.ltb_spec v (tls.MinVersion c)) as [Hlt|Hge]; simpl.
  - discriminate.
  - intros _. exact Hge.
Qed.

(** What the negotiation picks is offered by the peer, implemented and
    enabled. *)
Lemma mutualVersion_Some (c : tls.Config) (peer : list Z) (v : Z) :
  tls.mutualVersion c peer = Some v →
  In v peer ∧ In v tls.supportedVersions ∧ tls.versionEnabled c v = true.
Proof.
  unfold tls.mutualVersion, tls.Config_supportedVersions. intros H.
  apply find_some in H as [Hin Hc].
  apply filter_In in Hin as [Hs He].
  repeat split; try assumption. now apply contains_In.
Qed.

Lemma mutualVersion_below_min (c : tls.Config) (peer : list Z) :
  tls.MinVersion c ≠ 0 →
  Forall (fun v => v < tls.MinVersion c) peer →
  tls.mutualVersion c peer = None.
Proof.
  intros Hmin Hall.
  destruct (tls.mutualVersion c peer) as [v|] eqn:E; [|reflexivity].
  apply mutualVersion_Some in E as (Hin & _ & Hen).
  apply versionEnabled_min in Hen; [|exact Hmin].
  rewrite List.Forall_forall in Hall. specialize (Hall v Hin). simpl in Hall. lia.
Qed.

(** C1. A connection whose client offers only versions below TLS 1.2,
    the configured minimum, fails the handshake; serving it consists of
    the failed handshake alone and calls no registered handler. *)
Theorem below_minimum_is_rejected (c : Conn) :
  Forall (fun v => v < tls.VersionTLS12) (offered c) →
  serverHandshake servingConfig c = None
  ∧ serveConn routes servingConfig c = [HandshakeFailed]
  ∧ handlerCalls (serveConn routes servingConfig c) = [].
Proof.
  intros Hall.
  assert (Hfail : serverHandshake servingConfig c = None).
  { unfold serverHandshake. unfold offered in Hall.
    destruct (hello c) as [h|]; [|reflexivity].
    rewrite mutualVersion_below_min; [reflexivity|discriminate|].
    rewrite servingConfig_MinVersion. exact Hall. }
  split; [exact Hfail|].
  unfold serveConn. rewrite Hfail. split; reflexivity.
Qed.

Lemma below_minimum_is_rejected_witness :
  let c := {| hello := Some {| supported_versions := [tls.VersionTLS10; tls.VersionTLS11];
                               negotiable := true |};
              requests := [{| line_method := "GET"; line_path := "/orders";
                              line_proto := "HTTP/1.1" |}] |} in
  Forall (fun v => v < tls.VersionTLS12) (offered c)
  ∧ (serverHandshake servingConfig c = None
     ∧ serveConn routes servingConfig c = [HandshakeFailed]
     ∧ handlerCalls (serveConn routes servingConfig c) = []).
Proof.
  intros c.
  assert (H : Forall (fun v => v < tls.VersionTLS12) (offered c))
    by (repeat constructor).
  split; [exact H|exact (below_minimum_is_rejected c H)].
Defined.

(** ** Serving a request *)

Lemma cleanPath_orders_fix : ServeMux.cleanPath "/orders" = "/orders".
Proof. reflexivity. Qed.

Lemma cleanPath_users_fix : ServeMux.cleanPath "/users" = "/users".
Proof. reflexivity. Qed.

(** A request for a canonical path with a registered handler goes to
    that handler, whatever its method. *)
Lemma serve_registered (mux : ServeMux.t) (r : http.Request) (h : http.HandlerFunc) :
  http.Path r ≠ "*" →
  ServeMux.cleanPath (http.Path r) = http.Path r →
  mux !! http.Path r = Some h →
  serverHandler_ServeHTTP mux r = Call (http.Path r) :: h r.
Proof.
  intros Hstar Hclean Hlook.
  unfold serverHandler_ServeHTTP, ServeMux.ServeHTTP.
  apply String.eqb_neq in Hstar. rewrite Hstar. cbn [andb].
  unfold ServeMux.Handler. rewrite Hclean, String.eqb_refl. cbn [negb].
  unfold ServeMux.match_. rewrite Hlook.
  destruct (String.eqb (http.Method r) "CONNECT"); reflexivity.
Qed.

Lemma serve_orders (r : http.Request) :
  http.Path r = "/orders" →
  serverHandler_ServeHTTP routes r = Call "/orders" :: ordersHandler r.
Proof.
  intros Hp.
  rewrite (serve_registered routes r ordersHandler); rewrite Hp;
    [reflexivity|discriminate|exact cleanPath_orders_fix|exact routes_orders].
Qed.

Lemma serve_users (r : http.Request) :
  http.Path r = "/users" →
  serverHandler_ServeHTTP routes r = Call "/users" :: usersHandler r.
Proof.
  intros Hp.
  rewrite (serve_registered routes r usersHandler); rewrite Hp;
    [reflexivity|discriminate|exact cleanPath_users_fix|exact routes_users].
Qed.

(** The two lines of the request log. *)
Lemma logRequestDetails_lines (r : http.Request) :
  logRequestDetails r =
    [Println ("☑️ Received request with HTTP version: " +:+ http.Proto r);
     Println (match http.TLS r with
              | Some st => "☑️ Received request with TLS version: "
                           +:+ getTLSVersionName (tls.Version st)
              | None => "☑️ Received request without TLS"
              end)].
Proof. unfold logRequestDetails. destruct (http.TLS r); reflexivity. Qed.

(** The response writer after a handler that logs and then writes
    [body]: status 200, and the body unless the request is a HEAD. *)
Lemma responseOf_logged (method pattern body : string) (r : http.Request) :
  http.responseOf method (Call pattern :: logRequestDetails r ++ fmt_Fprintf body) =
    {| http.StatusCode := http.StatusOK; http.Location := None;
       http.Body := if String.eqb method "HEAD" then EmptyString else body |}.
Proof.
  rewrite logRequestDetails_lines. unfold http.responseOf, fmt_Fprintf.
  cbn [app fold_left http.response_step].
  unfold http.response_Write. cbn.
  destruct (String.eqb method "HEAD"); reflexivity.
Qed.

Lemma responseOf_plain (method pattern body : string) :
  http.responseOf method (Call pattern :: fmt_Fprintf body) =
    {| http.StatusCode := http.StatusOK; http.Location := None;
       http.Body := if String.eqb method "HEAD" then EmptyString else body |}.
Proof.
  unfold http.responseOf, fmt_Fprintf.
  cbn [fold_left http.response_step].
  unfold http.response_Write. cbn.
  destruct (String.eqb method "HEAD"); reflexivity.
Qed.

(** ** The versions the server enables *)

(** The versions the serving configuration enables. *)
Lemma servingConfig_versions :
  tls.Config_supportedVersions servingConfig = [tls.VersionTLS13; tls.VersionTLS12].
Proof. reflexivity. Qed.

(** ** Requests for the registered paths *)

Lemma simple_routes_orders : simple_routes !! "/orders" = Some simple_api.ordersHandler.
Proof.
  unfold simple_routes. rewrite lookup_insert_ne by discriminate. apply lookup_insert_eq.
Qed.

Lemma simple_routes_users : simple_routes !! "/users" = Some simple_api.usersHandler.
Proof. unfold simple_routes. apply lookup_insert_eq. Qed.

(** C2, as the claim states it, fails for the method HEAD: the handler
    runs and the status is 200, but the response has no body. *)
Lemma head_request_has_no_body :
  respond routes {| http.Method := "HEAD"; http.Path := "/orders";
                    http.Proto := "HTTP/1.1";
                    http.TLS := Some {| tls.Version := tls.VersionTLS13 |} |}
  = {| http.StatusCode := 200; http.Location := None; http.Body := EmptyString |}.
Proof. unfold respond. rewrite serve_orders by reflexivity. reflexivity. Qed.

(** C2, amended.  A request whose path is exactly /orders (or /users)
    is handled by the handler registered for that path and by no other,
    whatever its method; the handler writes its fixed text and the
    status is 200; the response carries that text as its body for every
    method except HEAD, whose response has no body.  The same holds for
    the server of [simple-api]. *)
Theorem registered_paths_respond (r : http.Request) (body : string) :
  (http.Path r = "/orders" ∧ body = "Handling incoming orders..✅")
  ∨ (http.Path r = "/users" ∧ body = "Handling users..✅") →
  let answer :=
    {| http.StatusCode := 200; http.Location := None;
       http.Body := if String.eqb (http.Method r) "HEAD" then EmptyString else body |} in
  handlerCalls (serverHandler_ServeHTTP routes r) = [http.Path r]
  ∧ In (Write body) (serverHandler_ServeHTTP routes r)
  ∧ respond routes r = answer
  ∧ respond simple_routes r = answer.
Proof.
  intros [[Hp ->]|[Hp ->]] answer; subst answer; unfold respond.
  - rewrite serve_orders by exact Hp.
    rewrite (serve_registered simple_routes r simple_api.ordersHandler);
      rewrite Hp; [|discriminate|exact cleanPath_orders_fix|exact simple_routes_orders].
    unfold ordersHandler, simple_api.ordersHandler.
    rewrite responseOf_logged, responseOf_plain, logRequestDetails_lines.
    repeat split; try reflexivity.
    cbn. tauto.
  - rewrite serve_users by exact Hp.
    rewrite (serve_registered simple_routes r simple_api.usersHandler);
      rewrite Hp; [|discriminate|exact cleanPath_users_fix|exact simple_routes_users].
    unfold usersHandler, simple_api.usersHandler.
    rewrite responseOf_logged, responseOf_plain, logRequestDetails_lines.
    repeat split; try reflexivity.
    cbn. tauto.
Qed.

Lemma registered_paths_respond_witness :
  let r := {| http.Method := "POST"; http.Path := "/users"; http.Proto := "HTTP/2.0";
              http.TLS := Some {| tls.Version := tls.VersionTLS12 |} |} in
  ((http.Path r = "/orders" ∧ "Handling users..✅" = "Handling incoming orders..✅")
   ∨ (http.Path r = "/users" ∧ "Handling users..✅" = "Handling users..✅"))
  ∧ respond routes r =
      {| http.StatusCode := 200; http.Location := None; http.Body := "Handling users..✅" |}.
Proof.
  intros r.
  assert (H : (http.Path r = "/orders" ∧ "Handling users..✅" = "Handling incoming orders..✅")
              ∨ (http.Path r = "/users" ∧ "Handling users..✅" = "Handling users..✅"))
    by (right; split; reflexivity).
  split; [exact H|].
  exact (proj1 (proj2 (proj2 (registered_paths_respond r _ H)))).
Defined.

(** ** The request log *)

(** What the multiplexer selects when the path has no handler. *)
Lemma Handler_unregistered (mux : ServeMux.t) (r : http.Request) :
  mux !! http.Path r = None →
  ServeMux.Handler mux r =
    if String.eqb (http.Method r) "CONNECT" then ServeMux.NotFoundHandler
    else if String.eqb (ServeMux.cleanPath (http.Path r)) (http.Path r)
         then ServeMux.NotFoundHandler
         else ServeMux.RedirectHandler (ServeMux.cleanPath (http.Path r))
                                       http.StatusTemporaryRedirect.
Proof.
  intros Hnone. unfold ServeMux.Handler, ServeMux.match_. rewrite Hnone.
  destruct (String.eqb (http.Method r) "CONNECT"); [reflexivity|].
  destruct (String.eqb (ServeMux.cleanPath (http.Path r)) (http.Path r)); reflexivity.
Qed.

(** A request whose path has no handler prints nothing. *)
Lemma unregistered_no_stdout (r : http.Request) :
  http.Path r ≠ "/orders" → http.Path r ≠ "/users" →
  stdout (serverHandler_ServeHTTP routes r) = [].
Proof.
  intros Ho Hu.
  unfold serverHandler_ServeHTTP, ServeMux.ServeHTTP.
  destruct (String.eqb (http.Path r) "*" && String.eqb (http.Method r) "OPTIONS");
    [reflexivity|].
  destruct (String.eqb (http.Path r) "*"); [reflexivity|].
  rewrite (Handler_unregistered routes r (routes_other _ Ho Hu)).
  destruct (String.eqb (http.Method r) "CONNECT"); [reflexivity|].
  destruct (String.eqb (ServeMux.cleanPath (http.Path r)) (http.Path r)); reflexivity.
Qed.

(** C5, as the claim states it, fails: a request the server accepts and
    answers, but whose path has no handler, is not logged at all. *)
Lemma unregistered_request_is_not_logged :
  let r := {| http.Method := "GET"; http.Path := "/"; http.Proto := "HTTP/1.1";
              http.TLS := Some {| tls.Version := tls.VersionTLS13 |} |} in
  stdout (serverHandler_ServeHTTP routes r) = []
  ∧ http.StatusCode (respond routes r) = 404.
Proof. split; reflexivity. Qed.

(** C5, amended.  For a request that reaches a registered handler (its
    path is /orders or /users) the logger runs exactly once, as the
    first step of that handler and before the handler writes the
    response: the trace is the call of the handler, the lines of the
    logger, then the write.  The logger prints the HTTP protocol
    version and then the name of the TLS version, or, for a request
    without TLS, the line saying so.  A request whose path has no
    handler is not logged. *)
Theorem logger_runs_first_in_handler (r : http.Request) :
  http.Path r = "/orders" ∨ http.Path r = "/users" →
  (∃ body : string,
     serverHandler_ServeHTTP routes r
     = Call (http.Path r) :: logRequestDetails r ++ [Write body])
  ∧ logRequestDetails r =
      [Println ("☑️ Received request with HTTP version: " +:+ http.Proto r);
       Println (match http.TLS r with
                | Some st => "☑️ Received request with TLS version: "
                             +:+ getTLSVersionName (tls.Version st)
                | None => "☑️ Received request without TLS"
                end)]
  ∧ length (stdout (serverHandler_ServeHTTP routes r)) = 2%nat
  ∧ (∀ r' : http.Request,
       http.Path r' ≠ "/orders" → http.Path r' ≠ "/users" →
       stdout (serverHandler_ServeHTTP routes r') = []).
Proof.
  intros Hp.
  assert (Hshape : ∃ body : string,
             serverHandler_ServeHTTP routes r
             = Call (http.Path r) :: logRequestDetails r ++ [Write body]).
  { destruct Hp as [Hp|Hp].
    - exists "Handling incoming orders..✅". rewrite serve_orders by exact Hp.
      now rewrite Hp.
    - exists "Handling users..✅". rewrite serve_users by exact Hp.
      now rewrite Hp. }
  split; [exact Hshape|]. split; [apply logRequestDetails_lines|].
  split; [|exact unregistered_no_stdout].
  destruct Hshape as [body ->]. rewrite logRequestDetails_lines. reflexivity.
Qed.

Lemma logger_runs_first_in_handler_witness :
  let r := {| http.Method := "GET"; http.Path := "/orders"; http.Proto := "HTTP/1.1";
              http.TLS := None |} in
  (http.Path r = "/orders" ∨ http.Path r = "/users")
  ∧ logRequestDetails r =
      [Println "☑️ Received request with HTTP version: HTTP/1.1";
       Println "☑️ Received request without TLS"].
Proof.
  intros r.
  assert (H : http.Path r = "/orders" ∨ http.Path r = "/users") by (left; reflexivity).
  split; [exact H|].
  exact (proj1 (proj2 (logger_runs_first_in_handler r H))).
Defined.

(** ** Requests for other paths *)


Lemma responseOf_Error (method msg : string) :
  http.StatusCode (http.responseOf method (ServeMux.Error msg http.StatusNotFound)) = 404.
Proof.
  unfold http.responseOf, ServeMux.Error. cbn.
  unfold http.response_Write. cbn.
  destruct (String.eqb method "HEAD"); reflexivity.
Qed.




(** ** Repeating a request *)

(** Only [/orders] and [/users] have a handler. *)
Lemma routes_inv (p : string) (h : http.HandlerFunc) :
  routes !! p = Some h →
  (p = "/orders" ∧ h = ordersHandler) ∨ (p = "/users" ∧ h = usersHandler).
Proof.
  intros H.
  destruct (String.eqb_spec p "/users") as [->|Hu].
  { rewrite routes_users in H. right. split; congruence. }
  destruct (String.eqb_spec p "/orders") as [->|Ho].
  { rewrite routes_orders in H. left. split; congruence. }
  rewrite routes_other in H by assumption. discriminate.
Qed.

(** The response depends on the method and the path of the request
    alone. *)
Lemma respond_method_path (r1 r2 : http.Request) :
  http.Method r1 = http.Method r2 → http.Path r1 = http.Path r2 →
  respond routes r1 = respond routes r2.
Proof.
  intros Hm Hp. unfold respond, serverHandler_ServeHTTP, ServeMux.ServeHTTP.
  rewrite <- Hm, <- Hp.
  destruct (String.eqb (http.Path r1) "*" && String.eqb (http.Method r1) "OPTIONS");
    [reflexivity|].
  destruct (String.eqb (http.Path r1) "*"); [reflexivity|].
  unfold ServeMux.Handler. rewrite <- Hm, <- Hp.
  destruct (String.eqb (http.Method r1) "CONNECT"
            || String.eqb (ServeMux.cleanPath (http.Path r1)) (http.Path r1)) eqn:Hsel.
  - assert (Hmatch : ∀ r : http.Request,
               http.Method r = http.Method r1 → http.Path r = http.Path r1 →
               ServeMux.Handler routes r = ServeMux.match_ routes (http.Path r1)).
    { intros r Hrm Hrp. unfold ServeMux.Handler. rewrite Hrm, Hrp.
      destruct (String.eqb (http.Method r1) "CONNECT"); [reflexivity|].
      cbn [orb] in Hsel. now rewrite Hsel. }
    pose proof (Hmatch r1 eq_refl eq_refl) as H1. unfold ServeMux.Handler in H1.
    rewrite H1. unfold ServeMux.match_.
    destruct (routes !! http.Path r1) as [h|] eqn:Hl; [|reflexivity].
    apply routes_inv in Hl as [[_ ->]|[_ ->]]; cbn [ServeMux.serve];
      unfold ordersHandler, usersHandler; now rewrite !responseOf_logged.
  - apply orb_false_iff in Hsel as [Hc Hk]. rewrite Hc, Hk. reflexivity.
Qed.

(** C9. Two requests with the same method and path get the same
    response, byte for byte, whatever the protocol version and the
    connection they arrive on, and whatever was served before on the
    connection: serving a connection is serving its earlier requests
    and then the request by itself.  For /orders the body is the fixed
    text (nothing for HEAD). *)
Theorem responses_are_repeatable
    (r1 r2 : http.Request) (c : Conn) (st : tls.ConnectionState)
    (before : list requestLine) (l : requestLine) :
  http.Method r1 = http.Method r2 → http.Path r1 = http.Path r2 →
  serverHandshake servingConfig c = Some st → requests c = before ++ [l] →
  respond routes r1 = respond routes r2
  ∧ serveConn routes servingConfig c
    = serveConn routes servingConfig {| hello := hello c; requests := before |}
      ++ serverHandler_ServeHTTP routes (readRequest st l)
  ∧ (http.Path r1 = "/orders" →
     http.Body (respond routes r1)
     = if String.eqb (http.Method r1) "HEAD" then EmptyString
       else "Handling incoming orders..✅").
Proof.
  intros Hm Hp Hhs Hreq.
  split; [exact (respond_method_path r1 r2 Hm Hp)|]. split.
  - assert (Hhs' : serverHandshake servingConfig {| hello := hello c; requests := before |}
                   = Some st) by exact Hhs.
    unfold serveConn. rewrite Hhs, Hhs', Hreq. cbn [requests].
    rewrite flat_map_app. cbn [flat_map]. rewrite app_nil_r. reflexivity.
  - intros Ho. unfold respond. rewrite serve_orders by exact Ho.
    unfold ordersHandler. now rewrite responseOf_logged.
Qed.

Lemma responses_are_repeatable_witness :
  let r1 := {| http.Method := "GET"; http.Path := "/orders"; http.Proto := "HTTP/1.1";
               http.TLS := Some {| tls.Version := tls.VersionTLS12 |} |} in
  let r2 := {| http.Method := "GET"; http.Path := "/orders"; http.Proto := "HTTP/2.0";
               http.TLS := Some {| tls.Version := tls.VersionTLS13 |} |} in
  let l := {| line_method := "GET"; line_path := "/orders"; line_proto := "HTTP/2.0" |} in
  let c := {| hello := Some {| supported_versions := [tls.VersionTLS13]; negotiable := true |};
              requests := [l; l] |} in
  respond routes r1 = respond routes r2
  ∧ http.Body (respond routes r1) = "Handling incoming orders..✅".
Proof.
  intros r1 r2 l c.
  pose proof (responses_are_repeatable r1 r2 c {| tls.Version := tls.VersionTLS13 |} [l] l
                eq_refl eq_refl eq_refl eq_refl) as (Hsame & _ & Hbody).
  split; [exact Hsame|exact (Hbody eq_refl)].
Defined.

(** ** Startup *)

Lemma exits_app (tr1 tr2 : list event) : exits (tr1 ++ tr2) = exits tr1 ++ exits tr2.
Proof. unfold exits. apply flat_map_app. Qed.

(** Serving a request never ends the process. *)
Lemma serve_request_no_exit (r : http.Request) :
  exits (serverHandler_ServeHTTP routes r) = [].
Proof.
  unfold serverHandler_ServeHTTP, ServeMux.ServeHTTP.
  destruct (String.eqb (http.Path r) "*" && String.eqb (http.Method r) "OPTIONS");
    [reflexivity|].
  destruct (String.eqb (http.Path r) "*"); [reflexivity|].
  assert (Hmatch : ∀ p, exits (ServeMux.serve (ServeMux.match_ routes p) r) = []).
  { intros p. unfold ServeMux.match_.
    destruct (routes !! p) as [h|] eqn:Hl; [|reflexivity].
    apply routes_inv in Hl as [[_ ->]|[_ ->]]; cbn [ServeMux.serve];
      unfold ordersHandler, usersHandler; rewrite logRequestDetails_lines; reflexivity. }
  unfold ServeMux.Handler.
  destruct (String.eqb (http.Method r) "CONNECT"); [apply Hmatch|].
  destruct (negb (String.eqb (ServeMux.cleanPath (http.Path r)) (http.Path r)));
    [reflexivity|apply Hmatch].
Qed.

Lemma serveConn_no_exit (config : tls.Config) (c : Conn) :
  exits (serveConn routes config c) = [].
Proof.
  unfold serveConn. destruct (serverHandshake config c) as [st|]; [|reflexivity].
  change (exits (HandshakeComplete (tls.Version st) :: ?tr)) with (exits tr).
  induction (requests c) as [|l ls IH]; [reflexivity|].
  cbn [flat_map]. rewrite exits_app, serve_request_no_exit, IH. reflexivity.
Qed.

Lemma serving_no_exit (config : tls.Config) (conns : list Conn) :
  exits (flat_map (serveConn routes config) conns) = [].
Proof.
  induction conns as [|c cs IH]; [reflexivity|].
  cbn [flat_map]. rewrite exits_app, serveConn_no_exit, IH. reflexivity.
Qed.

Lemma server_Addr : Addr (http2_ConfigureServer server) = ":3000".
Proof. vm_compute. reflexivity. Qed.

Lemma running_line :
  fmt_Println ["🟢 Server is running on PORT:"; pretty PORT]
  = [Println "🟢 Server is running on PORT: 3000"].
Proof. vm_compute. reflexivity. Qed.

Section Startup.

Variable Certificate : Type.
Variable X509KeyPair : string -> string -> result Certificate.

(** The trace of [main], by what binding the port and loading the key
    pair give. *)
Lemma main_trace (env : Env) (conns : list Conn) :
  main Certificate X509KeyPair env conns =
    Println "🟢 Server is running on PORT: 3000" ::
    match net_Listen env ":3000" with
    | Some e => log_Fatal "⚠️ Could not start the server:" e
    | None =>
        Listen ":3000" ::
        match LoadX509KeyPair Certificate X509KeyPair env "cert.pem" "key.pem" with
        | Err e => CloseListener :: log_Fatal "⚠️ Could not start the server:" e
        | Ok _ => flat_map (serveConn routes servingConfig) conns
        end
    end.
Proof.
  unfold main. rewrite registerRoutes_ok, running_line.
  unfold ListenAndServeTLS, ServeTLS. rewrite server_Addr.
  change (String.eqb ":3000" EmptyString) with false. cbv iota.
  fold servingConfig.
  destruct (net_Listen env ":3000") as [e|]; [reflexivity|].
  destruct (LoadX509KeyPair Certificate X509KeyPair env "cert.pem" "key.pem") as [cert|e];
    reflexivity.
Qed.

(** An unreadable file makes loading the key pair fail. *)
Lemma LoadX509KeyPair_unreadable (env : Env) :
  (∃ e, os_ReadFile env "cert.pem" = Err e) ∨ (∃ e, os_ReadFile env "key.pem" = Err e) →
  ∃ e, LoadX509KeyPair Certificate X509KeyPair env "cert.pem" "key.pem" = Err e.
Proof.
  unfold LoadX509KeyPair. intros [[e He]|[e He]].
  - rewrite He. now exists e.
  - destruct (os_ReadFile env "cert.pem") as [pem|e']; [|now exists e'].
    rewrite He. now exists e.
Qed.

(** C4, amended.  If the certificate file or the key file cannot be
    read, the process exits with status 1 and has served nothing: no
    handshake, no handler.  When the port can be bound, the listening
    socket is opened before the key pair is loaded and is closed again
    before the process exits; when it cannot, the process fails at the
    bind. *)
Theorem unreadable_key_pair_is_fatal (env : Env) (conns : list Conn) :
  (∃ e, os_ReadFile env "cert.pem" = Err e) ∨ (∃ e, os_ReadFile env "key.pem" = Err e) →
  exitCode (main Certificate X509KeyPair env conns) = Some 1
  ∧ handlerCalls (main Certificate X509KeyPair env conns) = []
  ∧ ∃ e : error,
      (net_Listen env ":3000" = Some e
       ∧ main Certificate X509KeyPair env conns =
           [Println "🟢 Server is running on PORT: 3000";
            LogPrint ("⚠️ Could not start the server:" +:+ e); Exit 1])
      ∨ (net_Listen env ":3000" = None
         ∧ main Certificate X509KeyPair env conns =
             [Println "🟢 Server is running on PORT: 3000";
              Listen ":3000"; CloseListener;
              LogPrint ("⚠️ Could not start the server:" +:+ e); Exit 1]).
Proof.
  intros Hfiles. apply LoadX509KeyPair_unreadable in Hfiles as [e He].
  rewrite main_trace, He.
  destruct (net_Listen env ":3000") as [e'|].
  - split; [reflexivity|]. split; [reflexivity|].
    exists e'. left. split; reflexivity.
  - split; [reflexivity|]. split; [reflexivity|].
    exists e. right. split; reflexivity.
Qed.

(** C8, amended.  The line "Server is running on PORT: 3000" is always
    the first line of output, printed before the server tries to
    listen.  When startup fails, at the bind or at loading the key
    pair, exactly one more line follows, "Could not start the server:"
    with the error, and the process exits with status 1.  When startup
    succeeds the lines of the requests follow and the process does not
    exit. *)
Theorem startup_output (env : Env) (conns : list Conn) :
  let tr := main Certificate X509KeyPair env conns in
  let running := "🟢 Server is running on PORT: 3000" in
  let failed e :=
    output tr = [running; "⚠️ Could not start the server:" +:+ e]
    ∧ exitCode tr = Some 1 in
  match net_Listen env ":3000",
        LoadX509KeyPair Certificate X509KeyPair env "cert.pem" "key.pem" with
  | Some e, _ => failed e
  | None, Err e => failed e
  | None, Ok _ =>
      output tr = running :: output (flat_map (serveConn routes servingConfig) conns)
      ∧ exitCode tr = None
  end.
Proof.
  cbv zeta. rewrite main_trace.
  destruct (net_Listen env ":3000") as [e|].
  - split; reflexivity.
  - destruct (LoadX509KeyPair Certificate X509KeyPair env "cert.pem" "key.pem") as [cert|e].
    + split; [reflexivity|].
      unfold exitCode.
      change (exits (Println ?l :: Listen ?a :: ?tr)) with (exits tr).
      now rewrite serving_no_exit.
    + split; reflexivity.
Qed.

End Startup.

(** C4, as the claim states it, fails: with the certificate missing and
    the port free, the listening socket is opened (and closed again)
    before the process exits. *)
Lemma socket_is_opened_before_key_pair_is_loaded :
  main unit (fun _ _ => Ok tt) no_files []
  = [Println "🟢 Server is running on PORT: 3000";
     Listen ":3000"; CloseListener;
     LogPrint "⚠️ Could not start the server:open cert.pem: no such file or directory";
     Exit 1].
Proof. rewrite main_trace. reflexivity. Qed.

Lemma unreadable_key_pair_is_fatal_witness :
  ((∃ e, os_ReadFile no_files "cert.pem" = Err e)
   ∨ (∃ e, os_ReadFile no_files "key.pem" = Err e))
  ∧ exitCode (main unit (fun _ _ => Ok tt) no_files []) = Some 1.
Proof.
  assert (H : (∃ e, os_ReadFile no_files "cert.pem" = Err e)
              ∨ (∃ e, os_ReadFile no_files "key.pem" = Err e))
    by (left; eexists; reflexivity).
  split; [exact H|].
  exact (proj1 (unreadable_key_pair_is_fatal unit (fun _ _ => Ok tt) no_files [] H)).
Defined.

(** C8, as the claim states it, fails: on a failed startup the operator
    sees two lines, the first of them the "Server is running" line. *)
Lemma running_line_precedes_startup_failure :
  output (main unit (fun _ _ => Ok tt) no_files [])
  = ["🟢 Server is running on PORT: 3000";
     "⚠️ Could not start the server:open cert.pem: no such file or directory"].
Proof. rewrite main_trace. reflexivity. Qed.

(** * Further properties of the servers *)

(** ** Names and versions *)

(** X1. The name identifies the version: two values that
    [getTLSVersionName] gives the same name, other than the fallback,
    are the same version; and the fallback is the name of exactly the
    values that are none of the four constants. *)
Theorem getTLSVersionName_injective (v1 v2 : Z) :
  getTLSVersionName v1 = getTLSVersionName v2 →
  getTLSVersionName v1 ≠ "Unknown TLS version!" →
  v1 = v2
  ∧ (∀ v : Z, getTLSVersionName v = "Unknown TLS version!"
              ↔ (v ≠ tls.VersionTLS10 ∧ v ≠ tls.VersionTLS11
                 ∧ v ≠ tls.VersionTLS12 ∧ v ≠ tls.VersionTLS13)).
Proof.
  intros Hsame Hknown. split.
  - destruct (getTLSVersionName_cases v1)
      as [[E1 N1]|[[E1 N1]|[[E1 N1]|[[E1 N1]|(_ & _ & _ & _ & N1)]]]];
      [| | | |contradiction];
      destruct (getTLSVersionName_cases v2)
        as [[E2 N2]|[[E2 N2]|[[E2 N2]|[[E2 N2]|(_ & _ & _ & _ & N2)]]]];
      rewrite N1, N2 in Hsame; try discriminate; congruence.
  - intros v. split.
    + intros Hv.
      destruct (getTLSVersionName_cases v)
        as [[_ N]|[[_ N]|[[_ N]|[[_ N]|(H0 & H1 & H2 & H3 & _)]]]];
        [rewrite N in Hv; discriminate ..|tauto].
    + intros (H0 & H1 & H2 & H3).
      destruct (getTLSVersionName_cases v)
        as [[E _]|[[E _]|[[E _]|[[E _]|(_ & _ & _ & _ & N)]]]]; congruence.
Qed.

Lemma getTLSVersionName_injective_witness :
  getTLSVersionName 0x0303 = getTLSVersionName tls.VersionTLS12
  ∧ getTLSVersionName 0x0303 ≠ "Unknown TLS version!"
  ∧ 0x0303 = tls.VersionTLS12.
Proof.
  assert (H1 : getTLSVersionName 0x0303 = getTLSVersionName tls.VersionTLS12)
    by reflexivity.
  assert (H2 : getTLSVersionName 0x0303 ≠ "Unknown TLS version!") by discriminate.
  split; [exact H1|]. split; [exact H2|].
  exact (proj1 (getTLSVersionName_injective 0x0303 tls.VersionTLS12 H1 H2)).
Defined.

(** ** The two TLS servers side by side *)

Lemma simple_routes_other (p : string) :
  p ≠ "/orders" → p ≠ "/users" → simple_routes !! p = None.
Proof.
  intros Ho Hu. unfold simple_routes.
  rewrite lookup_insert_ne by congruence.
  rewrite lookup_insert_ne by congruence.
  apply lookup_empty.
Qed.

(** Without a handler for the path, the answer does not depend on the
    route table. *)
Lemma serve_unregistered (mux : ServeMux.t) (r : http.Request) :
  mux !! http.Path r = None →
  serverHandler_ServeHTTP mux r = serverHandler_ServeHTTP ∅ r.
Proof.
  intros Hnone. unfold serverHandler_ServeHTTP, ServeMux.ServeHTTP.
  rewrite (Handler_unregistered mux r Hnone).
  rewrite (Handler_unregistered ∅ r (lookup_empty _)). reflexivity.
Qed.

(** A request whose path has no handler calls none. *)
Lemma unregistered_no_calls (r : http.Request) :
  http.Path r ≠ "/orders" → http.Path r ≠ "/users" →
  handlerCalls (serverHandler_ServeHTTP routes r) = [].
Proof.
  intros Ho Hu.
  unfold serverHandler_ServeHTTP, ServeMux.ServeHTTP.
  destruct (String.eqb (http.Path r) "*" && String.eqb (http.Method r) "OPTIONS");
    [reflexivity|].
  destruct (String.eqb (http.Path r) "*"); [reflexivity|].
  rewrite (Handler_unregistered routes r (routes_other _ Ho Hu)).
  destruct (String.eqb (http.Method r) "CONNECT"); [reflexivity|].
  destruct (String.eqb (ServeMux.cleanPath (http.Path r)) (http.Path r)); reflexivity.
Qed.

(** The three ways a request is served: by the handler of /orders, by
    the handler of /users, or by the server itself, which then prints
    nothing and calls no handler. *)
Lemma serve_shape (r : http.Request) :
  (http.Path r = "/orders"
   ∧ serverHandler_ServeHTTP routes r
     = Call "/orders" :: logRequestDetails r ++ [Write "Handling incoming orders..✅"]
   ∧ serverHandler_ServeHTTP simple_routes r
     = [Call "/orders"; Write "Handling incoming orders..✅"])
  ∨ (http.Path r = "/users"
     ∧ serverHandler_ServeHTTP routes r
       = Call "/users" :: logRequestDetails r ++ [Write "Handling users..✅"]
     ∧ serverHandler_ServeHTTP simple_routes r
       = [Call "/users"; Write "Handling users..✅"])
  ∨ (http.Path r ≠ "/orders" ∧ http.Path r ≠ "/users"
     ∧ serverHandler_ServeHTTP routes r = serverHandler_ServeHTTP simple_routes r
     ∧ stdout (serverHandler_ServeHTTP routes r) = []
     ∧ handlerCalls (serverHandler_ServeHTTP routes r) = []).
Proof.
  destruct (String.eqb_spec (http.Path r) "/orders") as [Ho|Ho].
  { left. split; [exact Ho|]. split.
    - now rewrite serve_orders.
    - rewrite (serve_registered simple_routes r simple_api.ordersHandler);
        rewrite Ho; [reflexivity|discriminate|exact cleanPath_orders_fix
                    |exact simple_routes_orders]. }
  destruct (String.eqb_spec (http.Path r) "/users") as [Hu|Hu].
  { right. left. split; [exact Hu|]. split.
    - now rewrite serve_users.
    - rewrite (serve_registered simple_routes r simple_api.usersHandler);
        rewrite Hu; [reflexivity|discriminate|exact cleanPath_users_fix
                    |exact simple_routes_users]. }
  right. right. split; [exact Ho|]. split; [exact Hu|]. split; [|split].
  - rewrite (serve_unregistered routes r (routes_other _ Ho Hu)).
    now rewrite (serve_unregistered simple_routes r (simple_routes_other _ Ho Hu)).
  - exact (unregistered_no_stdout r Ho Hu).
  - exact (unregistered_no_calls r Ho Hu).
Qed.

Lemma stdout_app (tr1 tr2 : list event) : stdout (tr1 ++ tr2) = stdout tr1 ++ stdout tr2.
Proof. unfold stdout. apply flat_map_app. Qed.

Lemma handlerCalls_app (tr1 tr2 : list event) :
  handlerCalls (tr1 ++ tr2) = handlerCalls tr1 ++ handlerCalls tr2.
Proof. unfold handlerCalls. apply flat_map_app. Qed.

Lemma withoutPrintln_app (tr1 tr2 : list event) :
  withoutPrintln (tr1 ++ tr2) = withoutPrintln tr1 ++ withoutPrintln tr2.
Proof. unfold withoutPrintln. apply List.filter_app. Qed.

(** A trace that prints nothing is its own trace without printing. *)
Lemma withoutPrintln_quiet (tr : list event) :
  stdout tr = [] → withoutPrintln tr = tr.
Proof.
  induction tr as [|e tr IH]; [reflexivity|].
  destruct e; cbn; intros H; try (f_equal; apply IH; exact H).
  discriminate.
Qed.

(** What is printed is invisible to the response writer. *)
Lemma response_ignores_Println (method : string) (tr : list event) (w : http.response) :
  fold_left (http.response_step method) (withoutPrintln tr) w
  = fold_left (http.response_step method) tr w.
Proof.
  revert w. induction tr as [|e tr IH]; intros w; [reflexivity|].
  destruct e; cbn [withoutPrintln List.filter fold_left]; try apply IH.
Qed.

(** Without its log, the server of [main] serves a request as the
    server of [simple-api] does. *)
Lemma serve_withoutPrintln (r : http.Request) :
  withoutPrintln (serverHandler_ServeHTTP routes r)
  = serverHandler_ServeHTTP simple_routes r.
Proof.
  destruct (serve_shape r) as [(_ & -> & ->)|[(_ & -> & ->)|(_ & _ & E & Hq & _)]].
  - rewrite logRequestDetails_lines. reflexivity.
  - rewrite logRequestDetails_lines. reflexivity.
  - rewrite <- E. exact (withoutPrintln_quiet _ Hq).
Qed.

(** X2. The two TLS servers answer every request alike: the request
    log of [main] changes no status, header or body, for any method
    and any path, registered or not. *)
Theorem logging_changes_no_response (r : http.Request) :
  respond routes r = respond simple_routes r.
Proof.
  unfold respond, http.responseOf.
  rewrite <- serve_withoutPrintln. now rewrite response_ignores_Println.
Qed.

Lemma simple_registerRoutes_ok :
  HandleFunc2 "/orders" simple_api.ordersHandler "/users" simple_api.usersHandler ∅
  = ServeMux.Registered simple_routes.
Proof.
  unfold HandleFunc2.
  rewrite HandleFunc_fresh by (discriminate || apply lookup_empty).
  rewrite HandleFunc_fresh; [reflexivity|discriminate|].
  rewrite lookup_insert_ne by discriminate. apply lookup_empty.
Qed.

Lemma serveConn_withoutPrintln (config : tls.Config) (c : Conn) :
  withoutPrintln (serveConn routes config c) = serveConn simple_routes config c.
Proof.
  unfold serveConn. destruct (serverHandshake config c) as [st|]; [|reflexivity].
  cbn [withoutPrintln List.filter]. f_equal.
  induction (requests c) as [|l ls IH]; [reflexivity|].
  cbn [flat_map].
  change (List.filter _ ?tr) with (withoutPrintln tr) in *.
  now rewrite withoutPrintln_app, serve_withoutPrintln, IH.
Qed.

Lemma serving_withoutPrintln (config : tls.Config) (conns : list Conn) :
  withoutPrintln (flat_map (serveConn routes config) conns)
  = flat_map (serveConn simple_routes config) conns.
Proof.
  induction conns as [|c cs IH]; [reflexivity|].
  cbn [flat_map]. now rewrite withoutPrintln_app, serveConn_withoutPrintln, IH.
Qed.

Section TwoServers.

Variable Certificate : Type.
Variable X509KeyPair : string -> string -> result Certificate.

(** The trace of [simple_api_main], by what binding the port and
    loading the key pair give. *)
Lemma simple_api_main_trace (env : Env) (conns : list Conn) :
  simple_api_main Certificate X509KeyPair env conns =
    Println "🟢 Server is running on PORT: 3000" ::
    match net_Listen env ":3000" with
    | Some e => log_Fatal "⚠️ Could not start the server:" e
    | None =>
        Listen ":3000" ::
        match LoadX509KeyPair Certificate X509KeyPair env "cert.pem" "key.pem" with
        | Err e => CloseListener :: log_Fatal "⚠️ Could not start the server:" e
        | Ok _ => flat_map (serveConn simple_routes servingConfig) conns
        end
    end.
Proof.
  unfold simple_api_main. rewrite simple_registerRoutes_ok, running_line.
  unfold ListenAndServeTLS, ServeTLS. rewrite server_Addr.
  change (String.eqb ":3000" EmptyString) with false. cbv iota.
  fold servingConfig.
  destruct (net_Listen env ":3000") as [e|]; [reflexivity|].
  destruct (LoadX509KeyPair Certificate X509KeyPair env "cert.pem" "key.pem") as [cert|e];
    reflexivity.
Qed.

(** X3. In every environment and for every sequence of connections,
    the process of [simple-api] does exactly what the process of
    [main] does, less the request log: its trace is the line
    "Server is running on PORT: 3000" followed by the trace of [main]
    without what [main] prints. *)
Theorem simple_api_is_main_without_log (env : Env) (conns : list Conn) :
  simple_api_main Certificate X509KeyPair env conns
  = Println "🟢 Server is running on PORT: 3000"
    :: withoutPrintln (main Certificate X509KeyPair env conns).
Proof.
  rewrite simple_api_main_trace, main_trace. f_equal.
  cbn [withoutPrintln List.filter].
  destruct (net_Listen env ":3000") as [e|]; [reflexivity|].
  cbn [withoutPrintln List.filter]. f_equal.
  destruct (LoadX509KeyPair Certificate X509KeyPair env "cert.pem" "key.pem") as [cert|e];
    [|reflexivity].
  symmetry. apply serving_withoutPrintln.
Qed.

End TwoServers.

(** ** The volume and the content of the request log *)

(** A request prints two lines for each handler it reaches. *)
Lemma serve_log_volume (r : http.Request) :
  length (stdout (serverHandler_ServeHTTP routes r))
  = (2 * length (handlerCalls (serverHandler_ServeHTTP routes r)))%nat.
Proof.
  destruct (serve_shape r) as [(_ & -> & _)|[(_ & -> & _)|(_ & _ & _ & -> & ->)]];
    try reflexivity; rewrite logRequestDetails_lines; reflexivity.
Qed.

Lemma serveConn_log_volume (config : tls.Config) (c : Conn) :
  length (stdout (serveConn routes config c))
  = (2 * length (handlerCalls (serveConn routes config c)))%nat.
Proof.
  unfold serveConn. destruct (serverHandshake config c) as [st|]; [|reflexivity].
  change (stdout (HandshakeComplete ?v :: ?tr)) with (stdout tr).
  change (handlerCalls (HandshakeComplete ?v :: ?tr)) with (handlerCalls tr).
  induction (requests c) as [|l ls IH]; [reflexivity|].
  cbn [flat_map]. rewrite stdout_app, handlerCalls_app, !length_app.
  rewrite serve_log_volume, IH. lia.
Qed.

Lemma serving_log_volume (config : tls.Config) (conns : list Conn) :
  length (stdout (flat_map (serveConn routes config) conns))
  = (2 * length (handlerCalls (flat_map (serveConn routes config) conns)))%nat.
Proof.
  induction conns as [|c cs IH]; [reflexivity|].
  cbn [flat_map]. rewrite stdout_app, handlerCalls_app, !length_app.
  rewrite serveConn_log_volume, IH. lia.
Qed.

(** The lines of one request on a connection negotiated at [v]. *)
Lemma serve_log_lines (st : tls.ConnectionState) (l : requestLine) (line : string) :
  In line (stdout (serverHandler_ServeHTTP routes (readRequest st l))) →
  line = "☑️ Received request with HTTP version: " +:+ line_proto l
  ∨ line = "☑️ Received request with TLS version: " +:+ getTLSVersionName (tls.Version st).
Proof.
  destruct (serve_shape (readRequest st l))
    as [(_ & -> & _)|[(_ & -> & _)|(_ & _ & _ & -> & _)]];
    [| |intros []]; rewrite logRequestDetails_lines; cbn;
    intros [<-|[<-|[]]]; auto.
Qed.

(** A completed handshake is at TLS 1.2 or TLS 1.3, a version the
    client offered. *)
Lemma serverHandshake_version (c : Conn) (st : tls.ConnectionState) :
  serverHandshake servingConfig c = Some st →
  (tls.Version st = tls.VersionTLS12 ∨ tls.Version st = tls.VersionTLS13)
  ∧ In (tls.Version st) (offered c).
Proof.
  unfold serverHandshake, offered.
  destruct (hello c) as [h|]; [|discriminate].
  destruct (tls.mutualVersion servingConfig (supported_versions h)) as [v|] eqn:Hv;
    [|discriminate].
  destruct (negotiable h); [|discriminate].
  intros [= <-]. cbn [tls.Version].
  pose proof (mutualVersion_Some _ _ _ Hv) as (Hoffer & _ & _).
  split; [|exact Hoffer].
  unfold tls.mutualVersion in Hv. rewrite servingConfig_versions in Hv.
  apply find_some in Hv as [Hin _].
  destruct Hin as [<-|[<-|[]]]; auto.
Qed.

Lemma stdout_flat_map {A : Type} (f : A → list event) (xs : list A) (line : string) :
  In line (stdout (flat_map f xs)) → ∃ x, In x xs ∧ In line (stdout (f x)).
Proof.
  induction xs as [|x xs IH]; [intros []|].
  cbn [flat_map]. rewrite stdout_app. intros H. apply in_app_or in H as [H|H].
  - exists x. split; [left; reflexivity|exact H].
  - destruct (IH H) as (y & Hy & Hl). exists y. split; [right; exact Hy|exact Hl].
Qed.

Lemma serving_log_lines (conns : list Conn) (line : string) :
  In line (stdout (flat_map (serveConn routes servingConfig) conns)) →
  (∃ proto : string, line = "☑️ Received request with HTTP version: " +:+ proto)
  ∨ line = "☑️ Received request with TLS version: TLS 1.2"
  ∨ line = "☑️ Received request with TLS version: TLS 1.3".
Proof.
  intros H. apply stdout_flat_map in H as (c & _ & H).
  unfold serveConn in H.
  destruct (serverHandshake servingConfig c) as [st|] eqn:Hhs; [|destruct H].
  change (stdout (HandshakeComplete ?v :: ?tr)) with (stdout tr) in H.
  apply stdout_flat_map in H as (l & _ & H).
  apply serve_log_lines in H as [-> | ->]; [left; eauto|].
  right. destruct (serverHandshake_version c st Hhs) as [[-> | ->] _]; auto.
Qed.

Section Log.

Variable Certificate : Type.
Variable X509KeyPair : string -> string -> result Certificate.

(** X4. In every run of [main], whether startup succeeds or not, the
    number of lines on standard output is one (the "Server is running"
    line) plus two for every call of a registered handler: nothing is
    logged for refused connections or for requests the server answers
    itself. *)
Theorem log_volume (env : Env) (conns : list Conn) :
  length (stdout (main Certificate X509KeyPair env conns))
  = (1 + 2 * length (handlerCalls (main Certificate X509KeyPair env conns)))%nat.
Proof.
  rewrite main_trace.
  destruct (net_Listen env ":3000") as [e|]; [reflexivity|].
  destruct (LoadX509KeyPair Certificate X509KeyPair env "cert.pem" "key.pem") as [cert|e];
    [|reflexivity].
  change (stdout (Println ?l :: Listen ?a :: ?tr)) with (l :: stdout tr).
  change (handlerCalls (Println ?l :: Listen ?a :: ?tr)) with (handlerCalls tr).
  cbn [length]. rewrite serving_log_volume. lia.
Qed.

(** X5. Every line [main] prints on standard output is the "Server is
    running" line, an HTTP version line, or the TLS version line for
    TLS 1.2 or for TLS 1.3.  In this server the logger never prints
    "Received request without TLS" and never names an unknown TLS
    version: both branches are out of reach behind the TLS listener
    with its minimum version. *)
Theorem log_lines (env : Env) (conns : list Conn) (line : string) :
  In line (stdout (main Certificate X509KeyPair env conns)) →
  (line = "🟢 Server is running on PORT: 3000"
   ∨ (∃ proto : string, line = "☑️ Received request with HTTP version: " +:+ proto)
   ∨ line = "☑️ Received request with TLS version: TLS 1.2"
   ∨ line = "☑️ Received request with TLS version: TLS 1.3")
  ∧ line ≠ "☑️ Received request without TLS"
  ∧ line ≠ "☑️ Received request with TLS version: Unknown TLS version!".
Proof.
  intros H.
  assert (Hclass : line = "🟢 Server is running on PORT: 3000"
            ∨ (∃ proto : string, line = "☑️ Received request with HTTP version: " +:+ proto)
            ∨ line = "☑️ Received request with TLS version: TLS 1.2"
            ∨ line = "☑️ Received request with TLS version: TLS 1.3").
  { rewrite main_trace in H.
    destruct (net_Listen env ":3000") as [e|].
    { destruct H as [<-|[]]. auto. }
    destruct (LoadX509KeyPair Certificate X509KeyPair env "cert.pem" "key.pem")
      as [cert|e].
    - change (stdout (Println ?l :: Listen ?a :: ?tr)) with (l :: stdout tr) in H.
      destruct H as [<-|H]; [auto|]. right. exact (serving_log_lines conns line H).
    - destruct H as [<-|[]]. auto. }
  split; [exact Hclass|].
  destruct Hclass as [-> | [[proto ->] | [-> | ->]]]; split; discriminate.
Qed.

End Log.

Lemma log_lines_witness :
  let c := {| hello := Some {| supported_versions := [tls.VersionTLS12; tls.VersionTLS13];
                               negotiable := true |};
              requests := [{| line_method := "GET"; line_path := "/users";
                              line_proto := "HTTP/2.0" |}] |} in
  In "☑️ Received request with TLS version: TLS 1.3"
     (stdout (main unit (fun _ _ => Ok tt) all_files [c]))
  ∧ "☑️ Received request with TLS version: TLS 1.3" ≠ "☑️ Received request without TLS".
Proof.
  intros c.
  assert (H : In "☑️ Received request with TLS version: TLS 1.3"
                 (stdout (main unit (fun _ _ => Ok tt) all_files [c])))
    by (rewrite main_trace; right; right; left; reflexivity).
  split; [exact H|].
  exact (proj1 (proj2 (log_lines unit (fun _ _ => Ok tt) all_files [c] _ H))).
Defined.

(** ** Handshakes *)

(** X6. A registered handler runs on a connection only after a
    handshake that negotiated TLS 1.2 or TLS 1.3, a version the client
    itself offered: whatever the client sends, no handler is reached
    on a connection without such a handshake. *)
Theorem handler_needs_handshake (c : Conn) :
  handlerCalls (serveConn routes servingConfig c) ≠ [] →
  ∃ st : tls.ConnectionState,
    serverHandshake servingConfig c = Some st
    ∧ (tls.Version st = tls.VersionTLS12 ∨ tls.Version st = tls.VersionTLS13)
    ∧ In (tls.Version st) (offered c).
Proof.
  unfold serveConn.
  destruct (serverHandshake servingConfig c) as [st|] eqn:Hhs.
  - intros _. exists st. split; [reflexivity|].
    exact (serverHandshake_version c st Hhs).
  - intros H. now contradiction H.
Qed.

Lemma handler_needs_handshake_witness :
  let c := {| hello := Some {| supported_versions := [tls.VersionTLS11; tls.VersionTLS12];
                               negotiable := true |};
              requests := [{| line_method := "GET"; line_path := "/orders";
                              line_proto := "HTTP/1.1" |}] |} in
  handlerCalls (serveConn routes servingConfig c) ≠ []
  ∧ ∃ st : tls.ConnectionState,
      serverHandshake servingConfig c = Some st
      ∧ (tls.Version st = tls.VersionTLS12 ∨ tls.Version st = tls.VersionTLS13)
      ∧ In (tls.Version st) (offered c).
Proof.
  intros c.
  assert (H : handlerCalls (serveConn routes servingConfig c) ≠ []).
  { change (serveConn routes servingConfig c)
      with (HandshakeComplete tls.VersionTLS12
            :: serverHandler_ServeHTTP routes
                 (readRequest {| tls.Version := tls.VersionTLS12 |}
                    {| line_method := "GET"; line_path := "/orders";
                       line_proto := "HTTP/1.1" |}) ++ []).
    rewrite serve_orders by reflexivity. discriminate. }
  split; [exact H|exact (handler_needs_handshake c H)].
Defined.

(** X7. What the handshake negotiates with the configuration of
    [main], for a client whose offer is otherwise acceptable: TLS 1.3
    whenever the client offers it, even beside lower versions; TLS 1.2
    when it offers TLS 1.2 but not TLS 1.3; and nothing, so that the
    handshake fails, when it offers neither, also when all it offers is
    above the minimum. *)
Theorem handshake_prefers_tls13 (c : Conn) (h : ClientHello) :
  hello c = Some h → negotiable h = true →
  serverHandshake servingConfig c =
    if tls.contains (supported_versions h) tls.VersionTLS13
    then Some {| tls.Version := tls.VersionTLS13 |}
    else if tls.contains (supported_versions h) tls.VersionTLS12
         then Some {| tls.Version := tls.VersionTLS12 |}
         else None.
Proof.
  intros Hh Hn. unfold serverHandshake, tls.mutualVersion.
  rewrite Hh, servingConfig_versions. cbn [find].
  destruct (tls.contains (supported_versions h) tls.VersionTLS13); [now rewrite Hn|].
  destruct (tls.contains (supported_versions h) tls.VersionTLS12); [now rewrite Hn|].
  reflexivity.
Qed.

Lemma handshake_prefers_tls13_witness :
  let h := {| supported_versions := [tls.VersionTLS10; tls.VersionTLS13; tls.VersionTLS12];
              negotiable := true |} in
  let c := {| hello := Some h; requests := [] |} in
  hello c = Some h ∧ negotiable h = true
  ∧ serverHandshake servingConfig c = Some {| tls.Version := tls.VersionTLS13 |}.
Proof.
  intros h c.
  split; [reflexivity|]. split; [reflexivity|].
  exact (handshake_prefers_tls13 c h eq_refl eq_refl).
Defined.

(** ** The server without TLS *)

(** The server of [simple-api]'s routes prints nothing and never ends
    the process while it serves a request. *)
Lemma simple_serve_quiet (r : http.Request) :
  output (serverHandler_ServeHTTP simple_routes r) = []
  ∧ exits (serverHandler_ServeHTTP simple_routes r) = [].
Proof.
  destruct (serve_shape r) as [(_ & _ & ->)|[(_ & _ & ->)|(Ho & Hu & _)]];
    [split; reflexivity ..|].
  rewrite (serve_unregistered simple_routes r (simple_routes_other _ Ho Hu)).
  unfold serverHandler_ServeHTTP, ServeMux.ServeHTTP.
  destruct (String.eqb (http.Path r) "*" && String.eqb (http.Method r) "OPTIONS");
    [split; reflexivity|].
  destruct (String.eqb (http.Path r) "*"); [split; reflexivity|].
  rewrite (Handler_unregistered ∅ r (lookup_empty _)).
  destruct (String.eqb (http.Method r) "CONNECT"); [split; reflexivity|].
  destruct (String.eqb (ServeMux.cleanPath (http.Path r)) (http.Path r));
    split; reflexivity.
Qed.

Lemma output_app (tr1 tr2 : list event) : output (tr1 ++ tr2) = output tr1 ++ output tr2.
Proof. unfold output. apply flat_map_app. Qed.

Lemma plain_serving_quiet (conns : list (list requestLine)) :
  let tr := flat_map (flat_map (fun l => serverHandler_ServeHTTP simple_routes
                                           (readPlainRequest l))) conns in
  output tr = [] ∧ exits tr = [].
Proof.
  cbv zeta. induction conns as [|c cs [IHo IHe]]; [split; reflexivity|].
  cbn [flat_map]. rewrite output_app, exits_app, IHo, IHe, !app_nil_r.
  induction c as [|l ls [IHlo IHle]]; [split; reflexivity|].
  cbn [flat_map]. rewrite output_app, exits_app, IHlo, IHle, !app_nil_r.
  apply simple_serve_quiet.
Qed.

(** X8. The server of [demo/http-client.md] drops the error of
    [http.ListenAndServe]: when the port cannot be bound, the process
    prints the "Server is running" line and ends with status 0, with
    no diagnostic and without having listened.  When the port can be
    bound it serves without ever exiting, and in both cases the
    "Server is running" line is all an operator ever sees. *)
Theorem plain_server_fails_silently (env : Env) (conns : list (list requestLine)) :
  output (plain_main env conns) = ["🟢 Server is running on PORT: 3000"]
  ∧ match net_Listen env ":3000" with
    | Some _ =>
        plain_main env conns = [Println "🟢 Server is running on PORT: 3000"; Exit 0]
    | None =>
        exitCode (plain_main env conns) = None
        ∧ ∃ served, plain_main env conns
                    = Println "🟢 Server is running on PORT: 3000"
                      :: Listen ":3000" :: served
    end.
Proof.
  unfold plain_main. rewrite simple_registerRoutes_ok, running_line.
  unfold http_ListenAndServe.
  change (":" +:+ pretty PORT) with (Addr server).
  replace (Addr server) with ":3000" by (vm_compute; reflexivity).
  change (String.eqb ":3000" EmptyString) with false. cbv iota.
  destruct (net_Listen env ":3000") as [e|]; [split; reflexivity|].
  destruct (plain_serving_quiet conns) as [Ho He]. cbv zeta in Ho, He.
  split; [|split].
  - cbn [app]. change (output (Println ?l :: Listen ?a :: ?tr)) with (l :: output tr).
    now rewrite Ho.
  - unfold exitCode. cbn [app].
    change (exits (Println ?l :: Listen ?a :: ?tr)) with (exits tr).
    now rewrite He.
  - eexists. reflexivity.
Qed.

(** ** Canonical paths *)

Lemma append_cons (c : ascii) (a b : string) : String c a +:+ b = String c (a +:+ b).
Proof. reflexivity. Qed.

Lemma append_nil_r (s : string) : s +:+ EmptyString = s.
Proof. induction s as [|c s IH]; [reflexivity|]. now rewrite append_cons, IH. Qed.

Lemma append_assoc (a b c : string) : (a +:+ b) +:+ c = a +:+ (b +:+ c).
Proof. induction a as [|x a IH]; [reflexivity|]. now rewrite !append_cons, IH. Qed.

(** Reading a slash-free piece extends the element being read. *)
Lemma split_noSlash (s t cur : string) :
  noSlash s = true → path.split (s +:+ t) cur = path.split t (cur +:+ s).
Proof.
  revert cur. induction s as [|c s IH]; intros cur Hs.
  - now rewrite append_nil_r.
  - cbn in Hs. apply andb_true_iff in Hs as [Hc Hs].
    rewrite append_cons. cbn [path.split].
    destruct (Ascii.eqb c "/"); [discriminate|].
    rewrite IH by exact Hs. now rewrite append_assoc.
Qed.

Lemma split_slash (t cur : string) :
  path.split ("/" +:+ t) cur = cur :: path.split t EmptyString.
Proof. reflexivity. Qed.

(** Splitting the elements joined by slashes gives the elements back. *)
Lemma split_concat (e : string) (es : list string) (cur : string) :
  forallb noSlash (e :: es) = true →
  path.split (String.concat "/" (e :: es)) cur = (cur +:+ e) :: es.
Proof.
  revert e cur. induction es as [|e' es IH]; intros e cur H.
  - cbn in H. rewrite andb_true_r in H. cbn [String.concat].
    rewrite <- (append_nil_r e) at 1. rewrite split_noSlash by exact H. reflexivity.
  - cbn [forallb] in H. apply andb_true_iff in H as [He H].
    change (String.concat "/" (e :: e' :: es))
      with (e +:+ ("/" +:+ String.concat "/" (e' :: es))).
    rewrite split_noSlash by exact He. rewrite split_slash.
    now rewrite IH.
Qed.

Lemma split_concat_slash (e : string) (es : list string) (cur : string) :
  forallb noSlash (e :: es) = true →
  path.split (String.concat "/" (e :: es) +:+ "/") cur = (cur +:+ e) :: es ++ [EmptyString].
Proof.
  revert e cur. induction es as [|e' es IH]; intros e cur H.
  - cbn in H. rewrite andb_true_r in H. cbn [String.concat].
    rewrite split_noSlash by exact H. reflexivity.
  - cbn [forallb] in H. apply andb_true_iff in H as [He H].
    change (String.concat "/" (e :: e' :: es))
      with (e +:+ ("/" +:+ String.concat "/" (e' :: es))).
    rewrite append_assoc. rewrite split_noSlash by exact He.
    rewrite (append_assoc "/"). rewrite split_slash.
    now rewrite IH.
Qed.

Lemma noSlash_append (a b : string) : noSlash (a +:+ b) = noSlash a && noSlash b.
Proof.
  induction a as [|c a IH]; [reflexivity|].
  rewrite append_cons. cbn [noSlash]. now rewrite IH, andb_assoc.
Qed.

Lemma split_all_noSlash (p cur : string) :
  noSlash cur = true → forallb noSlash (path.split p cur) = true.
Proof.
  revert cur. induction p as [|c p IH]; intros cur Hcur; cbn [path.split forallb].
  - now rewrite Hcur.
  - destruct (Ascii.eqb c "/") eqn:Hc; cbn [forallb].
    + rewrite Hcur. now apply IH.
    + apply IH. rewrite noSlash_append, Hcur. cbn [noSlash]. now rewrite Hc.
Qed.

Lemma regular_inv (e : string) :
  regular e = true →
  String.eqb e EmptyString = false ∧ String.eqb e "." = false
  ∧ String.eqb e ".." = false ∧ noSlash e = true.
Proof.
  unfold regular. intros H.
  apply andb_true_iff in H as [H Hs]. apply andb_true_iff in H as [H H2].
  apply andb_true_iff in H as [H0 H1].
  apply negb_true_iff in H0, H1, H2. auto.
Qed.

(** A regular element is kept as it is. *)
Lemma keep_regular (isRooted : bool) (kept : list string) (e : string) :
  regular e = true → path.keep isRooted kept e = e :: kept.
Proof.
  intros H. apply regular_inv in H as (H0 & H1 & H2 & _).
  unfold path.keep. now rewrite H0, H1, H2.
Qed.

Lemma fold_keep_regular (isRooted : bool) (es acc : list string) :
  forallb regular es = true →
  fold_left (path.keep isRooted) es acc = rev es ++ acc.
Proof.
  revert acc. induction es as [|e es IH]; intros acc H; [reflexivity|].
  cbn [forallb] in H. apply andb_true_iff in H as [He H].
  cbn [fold_left rev]. rewrite keep_regular by exact He.
  rewrite IH by exact H. now rewrite <- app_assoc.
Qed.

(** In a rooted path only regular elements are kept. *)
Lemma keep_invariant (kept : list string) (elem : string) :
  forallb regular kept = true → noSlash elem = true →
  forallb regular (path.keep true kept elem) = true.
Proof.
  intros Hk He. unfold path.keep.
  destruct (String.eqb elem EmptyString) eqn:H0; [exact Hk|].
  destruct (String.eqb elem ".") eqn:H1; [exact Hk|].
  destruct (String.eqb elem "..") eqn:H2.
  - destruct kept as [|top below]; [reflexivity|].
    cbn [forallb] in Hk. apply andb_true_iff in Hk as [Ht Hb].
    apply regular_inv in Ht as (_ & _ & Ht & _). now rewrite Ht.
  - cbn [forallb]. rewrite Hk, andb_true_r.
    unfold regular. now rewrite H0, H1, H2, He.
Qed.

Lemma fold_keep_invariant (elems acc : list string) :
  forallb noSlash elems = true → forallb regular acc = true →
  forallb regular (fold_left (path.keep true) elems acc) = true.
Proof.
  revert acc. induction elems as [|e es IH]; intros acc He Ha; [exact Ha|].
  cbn [forallb] in He. apply andb_true_iff in He as [He Hes].
  cbn [fold_left]. apply IH; [exact Hes|now apply keep_invariant].
Qed.

Lemma forallb_rev {A : Type} (f : A → bool) (l : list A) :
  forallb f l = true → forallb f (rev l) = true.
Proof.
  rewrite !forallb_forall. intros H x Hx. apply H. now apply in_rev.
Qed.

(** Cleaning a rooted path gives a slash followed by regular elements
    joined by slashes. *)
Lemma Clean_rooted (q : string) :
  path.rooted q = true →
  ∃ es : list string,
    forallb regular es = true ∧ path.Clean q = "/" +:+ String.concat "/" es.
Proof.
  intros Hr. unfold path.Clean. rewrite Hr.
  exists (rev (fold_left (path.keep true) (path.split q EmptyString) [])).
  split.
  - apply forallb_rev. apply fold_keep_invariant; [|reflexivity].
    now apply split_all_noSlash.
  - reflexivity.
Qed.

Lemma regular_all_noSlash (es : list string) :
  forallb regular es = true → forallb noSlash es = true.
Proof.
  rewrite !forallb_forall. intros H x Hx.
  now destruct (regular_inv x (H x Hx)) as (_ & _ & _ & Hs).
Qed.

(** Such a path is already clean, and a slash at its end is all that
    cleaning removes. *)
Lemma Clean_canonical (es : list string) :
  forallb regular es = true →
  path.Clean ("/" +:+ String.concat "/" es) = "/" +:+ String.concat "/" es
  ∧ (es ≠ [] →
     path.Clean ("/" +:+ String.concat "/" es +:+ "/") = "/" +:+ String.concat "/" es).
Proof.
  intros H. destruct es as [|e es]; [split; [reflexivity|congruence]|].
  pose proof (regular_all_noSlash _ H) as Hs.
  unfold path.Clean.
  change (path.rooted ("/" +:+ ?x)) with true. cbv iota.
  rewrite !split_slash, split_concat, split_concat_slash by exact Hs.
  change (EmptyString +:+ e) with e.
  change (fold_left (path.keep true) (EmptyString :: ?l) []) with
    (fold_left (path.keep true) l []).
  change (e :: es ++ [EmptyString]) with ((e :: es) ++ [EmptyString]).
  rewrite fold_left_app.
  rewrite !fold_keep_regular by exact H.
  cbn [fold_left].
  change (path.keep true ?k EmptyString) with k.
  rewrite app_nil_r, rev_involutive.
  split; [reflexivity|intros _; reflexivity].
Qed.

Lemma list_ascii_append (a b : string) :
  list_ascii_of_string (a +:+ b) = list_ascii_of_string a ++ list_ascii_of_string b.
Proof.
  induction a as [|c a IH]; [reflexivity|].
  rewrite append_cons. cbn [list_ascii_of_string]. now rewrite IH.
Qed.

Lemma endsWithSlash_slash (a : string) : ServeMux.endsWithSlash (a +:+ "/") = true.
Proof.
  unfold ServeMux.endsWithSlash. rewrite list_ascii_append, rev_app_distr. reflexivity.
Qed.

(** Only the end of a string decides. *)
Lemma endsWithSlash_suffix (a b : string) :
  b ≠ EmptyString → ServeMux.endsWithSlash (a +:+ b) = ServeMux.endsWithSlash b.
Proof.
  intros Hb. unfold ServeMux.endsWithSlash. rewrite list_ascii_append, rev_app_distr.
  destruct b as [|c b]; [congruence|].
  cbn [list_ascii_of_string rev].
  destruct (rev (list_ascii_of_string b)); reflexivity.
Qed.

Lemma noSlash_In (e : string) (c : ascii) :
  noSlash e = true → In c (list_ascii_of_string e) → Ascii.eqb c "/" = false.
Proof.
  induction e as [|x e IH]; [intros _ []|].
  cbn [noSlash list_ascii_of_string]. intros H [<-|Hin].
  - apply andb_true_iff in H as [H _]. now apply negb_true_iff in H.
  - apply andb_true_iff in H as [_ H]. now apply IH.
Qed.

Lemma endsWithSlash_noSlash (e : string) :
  noSlash e = true → ServeMux.endsWithSlash e = false.
Proof.
  intros H. unfold ServeMux.endsWithSlash.
  destruct (rev (list_ascii_of_string e)) as [|c l] eqn:Hrev; [reflexivity|].
  apply (noSlash_In e c H). apply in_rev. rewrite Hrev. now left.
Qed.

Lemma regular_nonempty (e : string) : regular e = true → e ≠ EmptyString.
Proof.
  intros H ->. discriminate.
Qed.

Lemma concat_nonempty (e : string) (es : list string) :
  regular e = true → String.concat "/" (e :: es) ≠ EmptyString.
Proof.
  intros H. pose proof (regular_nonempty e H) as He.
  destruct e as [|c e]; [congruence|].
  destruct es; cbn [String.concat]; [discriminate|].
  rewrite append_cons. discriminate.
Qed.

(** Regular elements joined by slashes do not end in a slash. *)
Lemma endsWithSlash_concat (x e : string) (es : list string) :
  forallb regular (e :: es) = true →
  ServeMux.endsWithSlash (x +:+ String.concat "/" (e :: es)) = false.
Proof.
  revert x e. induction es as [|e' es IH]; intros x e H;
    cbn [forallb] in H; apply andb_true_iff in H as [He H].
  - cbn [String.concat].
    rewrite endsWithSlash_suffix by exact (regular_nonempty e He).
    apply endsWithSlash_noSlash. now destruct (regular_inv e He) as (_ & _ & _ & Hs).
  - change (String.concat "/" (e :: e' :: es))
      with (e +:+ ("/" +:+ String.concat "/" (e' :: es))).
    rewrite <- !append_assoc. now apply IH.
Qed.

Lemma concat_not_root (e : string) (es : list string) :
  regular e = true → String.eqb ("/" +:+ String.concat "/" (e :: es)) "/" = false.
Proof.
  intros He. pose proof (concat_nonempty e es He) as Hc.
  destruct (String.concat "/" (e :: es)); [congruence|reflexivity].
Qed.

(** The canonical form of a path: a slash, regular elements joined by
    slashes and, if there are elements, possibly a slash at the end. *)
Lemma cleanPath_form (p : string) :
  ∃ es : list string,
    forallb regular es = true
    ∧ (ServeMux.cleanPath p = "/" +:+ String.concat "/" es
       ∨ (es ≠ [] ∧ ServeMux.cleanPath p = "/" +:+ String.concat "/" es +:+ "/")).
Proof.
  unfold ServeMux.cleanPath.
  destruct (String.eqb p EmptyString); [exists []; split; [reflexivity|left; reflexivity]|].
  set (q := if path.rooted p then p else "/" +:+ p).
  assert (Hq : path.rooted q = true).
  { subst q. destruct (path.rooted p) eqn:Hp; [exact Hp|reflexivity]. }
  destruct (Clean_rooted q Hq) as (es & Hes & ->).
  exists es. split; [exact Hes|].
  destruct es as [|e es].
  { left. cbn [String.concat]. change ("/" +:+ EmptyString) with "/".
    now rewrite String.eqb_refl, andb_false_r. }
  cbn [forallb] in Hes. apply andb_true_iff in Hes as [He _].
  rewrite (concat_not_root e es He), andb_true_r. cbn [negb].
  destruct (ServeMux.endsWithSlash q); [right|left; reflexivity].
  split; [discriminate|apply append_assoc].
Qed.

(** Paths of this form are fixed points of [cleanPath]. *)
Lemma cleanPath_fixed (es : list string) :
  forallb regular es = true →
  ServeMux.cleanPath ("/" +:+ String.concat "/" es) = "/" +:+ String.concat "/" es
  ∧ (es ≠ [] →
     ServeMux.cleanPath ("/" +:+ String.concat "/" es +:+ "/")
     = "/" +:+ String.concat "/" es +:+ "/").
Proof.
  intros Hes. destruct (Clean_canonical es Hes) as [Hfix Hslash].
  unfold ServeMux.cleanPath.
  change (String.eqb ("/" +:+ ?x) EmptyString) with false. cbv iota.
  change (path.rooted ("/" +:+ ?x)) with true. cbv iota.
  destruct es as [|e es]; [split; [reflexivity|congruence]|].
  assert (He : regular e = true).
  { cbn [forallb] in Hes. now apply andb_true_iff in Hes as [He _]. }
  rewrite Hfix, Hslash by discriminate.
  rewrite (concat_not_root e es He), andb_true_r. cbn [negb].
  split.
  - now rewrite endsWithSlash_concat by exact Hes.
  - intros _. rewrite <- append_assoc, endsWithSlash_slash. apply append_assoc.
Qed.

(** The canonical form of a path is a fixed point of [cleanPath]. *)
Lemma cleanPath_idempotent (p : string) :
  ServeMux.cleanPath (ServeMux.cleanPath p) = ServeMux.cleanPath p.
Proof.
  destruct (cleanPath_form p) as (es & Hes & [-> | [Hne ->]]).
  - exact (proj1 (cleanPath_fixed es Hes)).
  - exact (proj2 (cleanPath_fixed es Hes) Hne).
Qed.

(** The canonical form of a path is rooted. *)
Lemma cleanPath_rooted (p : string) : path.rooted (ServeMux.cleanPath p) = true.
Proof.
  destruct (cleanPath_form p) as (es & _ & [-> | [_ ->]]); reflexivity.
Qed.

(** X10. A redirect is final.  The canonical form of a path is itself
    canonical, so a request for it, by any method, is not redirected
    again: it is answered with status 200 by the registered handler
    when the canonical form is /orders or /users, and with 404
    otherwise. *)
Theorem redirect_is_final
    (p method proto : string) (st : option tls.ConnectionState) :
  let r := {| http.Method := method; http.Path := ServeMux.cleanPath p;
              http.Proto := proto; http.TLS := st |} in
  ServeMux.cleanPath (http.Path r) = http.Path r
  ∧ http.StatusCode (respond routes r)
    = if String.eqb (ServeMux.cleanPath p) "/orders"
         || String.eqb (ServeMux.cleanPath p) "/users"
      then 200 else 404.
Proof.
  intros r. split; [apply cleanPath_idempotent|].
  unfold respond.
  destruct (String.eqb_spec (ServeMux.cleanPath p) "/orders") as [Ho|Ho].
  { rewrite serve_orders by exact Ho. unfold ordersHandler.
    now rewrite responseOf_logged. }
  destruct (String.eqb_spec (ServeMux.cleanPath p) "/users") as [Hu|Hu].
  { rewrite serve_users by exact Hu. unfold usersHandler.
    now rewrite responseOf_logged. }
  cbn [orb].
  assert (Hstar : String.eqb (http.Path r) "*" = false).
  { apply String.eqb_neq. intros E.
    pose proof (cleanPath_rooted p) as Hr.
    change (http.Path r) with (ServeMux.cleanPath p) in E. rewrite E in Hr.
    discriminate. }
  unfold serverHandler_ServeHTTP, ServeMux.ServeHTTP. rewrite Hstar. cbn [andb].
  rewrite (Handler_unregistered routes r (routes_other _ Ho Hu)).
  destruct (String.eqb (http.Method r) "CONNECT"); [apply responseOf_Error|].
  change (http.Path r) with (ServeMux.cleanPath p).
  rewrite cleanPath_idempotent, String.eqb_refl.
  apply responseOf_Error.
Qed.

(** ** The logged TLS version *)

Lemma stdout_flat_map_eq {A : Type} (f : A → list event) (xs : list A) :
  stdout (flat_map f xs) = flat_map (fun x => stdout (f x)) xs.
Proof.
  induction xs as [|x xs IH]; [reflexivity|].
  cbn [flat_map]. now rewrite stdout_app, IH.
Qed.

(** What serving one request of a connection prints. *)
Lemma serve_stdout (st : tls.ConnectionState) (l : requestLine) :
  stdout (serverHandler_ServeHTTP routes (readRequest st l))
  = if String.eqb (line_path l) "/orders" || String.eqb (line_path l) "/users"
    then ["☑️ Received request with HTTP version: " +:+ line_proto l;
          "☑️ Received request with TLS version: " +:+ getTLSVersionName (tls.Version st)]
    else [].
Proof.
  destruct (serve_shape (readRequest st l))
    as [(Hp & -> & _)|[(Hp & -> & _)|(Ho & Hu & _ & -> & _)]];
    cbn [readRequest http.Path] in *.
  - rewrite Hp, logRequestDetails_lines. reflexivity.
  - rewrite Hp, logRequestDetails_lines. reflexivity.
  - apply String.eqb_neq in Ho, Hu. now rewrite Ho, Hu.
Qed.

(** C6. On a connection whose handshake succeeds, the negotiated
    version is one the client offered and is TLS 1.2 or TLS 1.3.
    Serving the connection logs, for each of its requests to /orders
    or /users and in their order, the HTTP version line and then the
    TLS version line with the name of the negotiated version, "TLS 1.2"
    for TLS 1.2 and "TLS 1.3" for TLS 1.3, and logs nothing else.  In a
    run of [main] that has started, the trace of serving the connection
    stands in the trace of the process as it is. *)
Theorem logged_tls_version_is_negotiated (c : Conn) (st : tls.ConnectionState) :
  serverHandshake servingConfig c = Some st →
  In (tls.Version st) (offered c)
  ∧ stdout (serveConn routes servingConfig c)
    = flat_map
        (fun l =>
           if String.eqb (line_path l) "/orders" || String.eqb (line_path l) "/users"
           then ["☑️ Received request with HTTP version: " +:+ line_proto l;
                 "☑️ Received request with TLS version: "
                 +:+ getTLSVersionName (tls.Version st)]
           else [])
        (requests c)
  ∧ ((tls.Version st = tls.VersionTLS12 ∧ getTLSVersionName (tls.Version st) = "TLS 1.2")
     ∨ (tls.Version st = tls.VersionTLS13 ∧ getTLSVersionName (tls.Version st) = "TLS 1.3"))
  ∧ (∀ (Certificate : Type) (X509KeyPair : string → string → result Certificate)
       (env : Env) (cert : Certificate) (before after : list Conn),
       net_Listen env ":3000" = None →
       LoadX509KeyPair Certificate X509KeyPair env "cert.pem" "key.pem" = Ok cert →
       main Certificate X509KeyPair env (before ++ c :: after)
       = Println "🟢 Server is running on PORT: 3000"
         :: Listen ":3000"
         :: flat_map (serveConn routes servingConfig) before
            ++ serveConn routes servingConfig c
            ++ flat_map (serveConn routes servingConfig) after).
Proof.
  intros Hhs.
  destruct (serverHandshake_version c st Hhs) as [Hv Hoffer].
  split; [exact Hoffer|]. split; [|split].
  - unfold serveConn. rewrite Hhs.
    change (stdout (HandshakeComplete ?v :: ?tr)) with (stdout tr).
    rewrite stdout_flat_map_eq.
    induction (requests c) as [|l ls IH]; [reflexivity|].
    cbn [flat_map]. now rewrite serve_stdout, IH.
  - destruct Hv as [Hv|Hv]; rewrite Hv; [left|right]; split; reflexivity.
  - intros Certificate X509KeyPair env cert before after Hbind Hload.
    rewrite main_trace, Hbind, Hload.
    rewrite flat_map_app. reflexivity.
Qed.

Lemma logged_tls_version_is_negotiated_witness :
  let c := {| hello := Some {| supported_versions := [tls.VersionTLS11; tls.VersionTLS12];
                               negotiable := true |};
              requests := [{| line_method := "GET"; line_path := "/orders";
                              line_proto := "HTTP/2.0" |};
                           {| line_method := "GET"; line_path := "/products";
                              line_proto := "HTTP/2.0" |}] |} in
  let st := {| tls.Version := tls.VersionTLS12 |} in
  serverHandshake servingConfig c = Some st
  ∧ stdout (serveConn routes servingConfig c)
    = ["☑️ Received request with HTTP version: HTTP/2.0";
       "☑️ Received request with TLS version: TLS 1.2"].
Proof.
  intros c st.
  assert (H : serverHandshake servingConfig c = Some st) by reflexivity.
  split; [exact H|].
  exact (proj1 (proj2 (logged_tls_version_is_negotiated c st H))).
Defined.
